(** * Post routes (src/routes/api/posts.js): a shallow embedding

    The module is an Express router of ten request handlers over a
    collection of post documents.  Each handler is embedded as a function
    in a small state-and-exception monad:

    - the state holds the post collection, the user directory, the
      response object [res] (its status code and what was sent, if
      anything) and a trace of the effects performed;
    - an exception is a JavaScript [throw]; [try_catch] is the handlers'
      [try { ... } catch (err) { ... }];
    - an early [return] at the top level of a handler is the [else]-less
      branch of an [if]; a [return] inside an array callback returns an
      element to [map] / [filter], as it does in JavaScript. *)

From stdpp Require Import gmap strings list fin_maps sorting.
From Stdlib Require Import ZArith Lia.

Open Scope string_scope.
Open Scope list_scope.
Open Scope Z_scope.

(** ** Data model *)

Record User := mkUser {
  user_name : string;
  user_avatar : string
}.

Record Like := mkLike {
  like_id : string;
  like_user : string
}.

Record Comment := mkComment {
  comment_id : string;
  comment_text : string;
  comment_name : string;
  comment_avatar : string;
  comment_user : string;
  comment_date : Z
}.

(** A post document without its [_id]: the collection is keyed by it. *)
Record Post := mkPost {
  text : string;
  name : string;
  avatar : string;
  user : string;
  date : Z;
  likes : list Like;
  comments : list Comment
}.

Definition set_text (t : string) (p : Post) : Post :=
  mkPost t (name p) (avatar p) (user p) (date p) (likes p) (comments p).

Definition set_likes (ls : list Like) (p : Post) : Post :=
  mkPost (text p) (name p) (avatar p) (user p) (date p) ls (comments p).

Definition set_comments (cs : list Comment) (p : Post) : Post :=
  mkPost (text p) (name p) (avatar p) (user p) (date p) (likes p) cs.

Definition set_comment_text (t : string) (c : Comment) : Comment :=
  mkComment (comment_id c) t (comment_name c) (comment_avatar c)
            (comment_user c) (comment_date c).

(** A loaded document: the in-memory copy a handler mutates before
    [save()].  [doc_invalid] is set when a value that is not a comment was
    assigned into [comments] and could not be cast. *)
Record Doc := mkDoc {
  doc_id : string;
  doc_post : Post;
  doc_invalid : bool
}.

(** ** Requests and responses *)

Record Req := mkReq {
  req_user_id : string;             (* req.user.id, set by the auth middleware *)
  req_post_id : string;             (* req.params.post_id *)
  req_comment_id : string;          (* req.params.comment_id *)
  req_text : option string          (* req.body.text *)
}.

(** What the runtime supplies to a request: the identifier generated for
    a new document or subdocument, and the clock for [Date.now]. *)
Record Env := mkEnv {
  fresh_id : string;
  now : Z
}.

Inductive Body :=
| BPost (id : string) (p : Post)
| BPosts (ps : list (string * Post))
| BMsg (msg : string)
| BMsgPost (msg : string) (id : string) (p : Post)
| BLikes (ls : list Like)
| BComments (cs : list Comment)
| BErrors (msgs : list string)
| BText (s : string).

Record Response := mkResponse {
  status_code : Z;
  body : Body
}.

Inductive Exn :=
| CastError_ObjectId        (* mongoose CastError, err.kind === 'ObjectId' *)
| ERR_HTTP_HEADERS_SENT     (* a second send on the same response *)
| TypeError                 (* property access on null *)
| ValidationError           (* save() of a document that fails validation *)
| DuplicateKey.             (* insert of an _id already in the collection *)

Definition kind_is_ObjectId (e : Exn) : bool :=
  match e with CastError_ObjectId => true | _ => false end.

Inductive Event :=
| EvSave (id : string) (p : Post)
| EvRemove (id : string)
| EvSend (r : Response)
| EvLog (e : Exn).

Record St := mkSt {
  db : gmap string Post;
  directory : gmap string User;
  statusCode : Z;
  sent : option Response;
  trace : list Event
}.

(** The state a handler starts in: a fresh response object. *)
Definition init (posts : gmap string Post) (us : gmap string User) : St :=
  mkSt posts us 200 None [].

(** ** The monad *)

Definition M (A : Type) : Type := St -> (Exn + A) * St.

Definition ret {A} (a : A) : M A := fun s => (inr a, s).

Definition bind {A B} (m : M A) (k : A -> M B) : M B :=
  fun s => match m s with
           | (inr a, s') => k a s'
           | (inl e, s') => (inl e, s')
           end.

Definition throw {A} (e : Exn) : M A := fun s => (inl e, s).

Definition try_catch {A} (m : M A) (h : Exn -> M A) : M A :=
  fun s => match m s with
           | (inr a, s') => (inr a, s')
           | (inl e, s') => h e s'
           end.

Notation "'let!' x ':=' m 'in' k" := (bind m (fun x => k))
  (at level 10, x name, m at level 100, k at level 200).
Notation "m '>>' k" := (bind m (fun _ => k))
  (at level 90, right associativity).

Fixpoint array_map {A B} (f : A -> M B) (l : list A) : M (list B) :=
  match l with
  | [] => ret []
  | x :: l' => let! y := f x in let! ys := array_map f l' in ret (y :: ys)
  end.

Definition emit (ev : Event) : M unit :=
  fun s => (inr tt, mkSt (db s) (directory s) (statusCode s) (sent s) (trace s ++ [ev])).

(** ** The response object *)

(** [res.status(c)] only records the code. *)
Definition status (c : Z) : M unit :=
  fun s => (inr tt, mkSt (db s) (directory s) c (sent s) (trace s)).

(** [res.json(b)] and [res.send(b)]: send once; a second send throws. *)
Definition send (b : Body) : M unit :=
  fun s => match sent s with
           | Some _ => (inl ERR_HTTP_HEADERS_SENT, s)
           | None =>
               let r := mkResponse (statusCode s) b in
               (inr tt, mkSt (db s) (directory s) (statusCode s) (Some r)
                             (trace s ++ [EvSend r]))
           end.

Definition json (b : Body) : M unit := send b.

Definition console_error (e : Exn) : M unit := emit (EvLog e).

(** ** JavaScript arrays *)

Definition unshift {A} (x : A) (l : list A) : list A := x :: l.

Fixpoint indexOf_from (i : Z) (l : list string) (x : string) : Z :=
  match l with
  | [] => -1
  | y :: l' => if String.eqb y x then i else indexOf_from (i + 1) l' x
  end.

Definition indexOf (l : list string) (x : string) : Z := indexOf_from 0 l x.

(** [l.splice(start, deleteCount)]: the array left behind.  A negative
    [start] counts from the end. *)
Definition splice {A} (start deleteCount : Z) (l : list A) : list A :=
  let len := Z.of_nat (length l) in
  let actualStart := if start <? 0 then Z.max (len + start) 0 else Z.min start len in
  let actualDeleteCount := Z.min (Z.max deleteCount 0) (len - actualStart) in
  take (Z.to_nat actualStart) l ++ drop (Z.to_nat (actualStart + actualDeleteCount)) l.

(** What an array callback may return in this module. *)
Inductive JsVal :=
| VBool (b : bool)
| VRes.                     (* the response object: [res.status(..).json(..)] returns it *)

Definition truthy (v : JsVal) : bool :=
  match v with VBool b => b | VRes => true end.

Fixpoint array_filter {A} (f : A -> M JsVal) (l : list A) : M (list A) :=
  match l with
  | [] => ret []
  | x :: l' =>
      let! v := f x in
      let! ys := array_filter f l' in
      ret (if truthy v then x :: ys else ys)
  end.

(** An element of the array [map] builds in the update-comment handler:
    a comment, or the response object. *)
Inductive Slot :=
| SComment (c : Comment)
| SRes.

(** ** Sort order of the listing

    [sort({ date: -1 })]: newest first. *)
Definition newer_first (a b : string * Post) : Prop := date (snd b) <= date (snd a).

#[global] Instance newer_first_dec a b : Decision (newer_first a b).
Proof. unfold newer_first. apply _. Defined.

(** ** The collaborators: the Post and User models

    [models/Post] and [models/User] are not part of this file.  Three
    facts about them are taken as parameters of the development:

    - [isObjectId]: which strings the store accepts as a reference;
      [findById] throws a [CastError] of kind ['ObjectId'] on the others;
    - [canon]: the identifier a string that the store accepts is cast to,
      as [toString()] prints it.  Documents are filed under it, lookups
      go through it, and a field that holds a reference stores it: two
      spellings of one identifier find the same document.  What the
      handlers compare with [===] are the printed identifier and the
      string of the request, as in the source;
    - [castRes]: what assigning the response object into [post.comments]
      makes of it: [Some c] when the comment schema casts it to the
      subdocument [c], [None] when the document is then invalid and
      [save()] rejects. *)

Section Routes.

Variable isObjectId : string -> bool.
Variable canon : string -> string.
Variable castRes : option Comment.

(** A string in the spelling the store itself prints: what a token
    issued from a stored user carries as [req.user.id]. *)
Definition canonical (id : string) : Prop :=
  isObjectId id = true /\ canon id = id.

Definition Post_findById (id : string) : M (option Doc) :=
  fun s =>
    if isObjectId id
    then (inr (option_map (fun p => mkDoc (canon id) p false)
                          (db s !! canon id)), s)
    else (inl CastError_ObjectId, s).

Definition User_findById (id : string) : M (option User) :=
  fun s =>
    if isObjectId id
    then (inr (directory s !! canon id), s)
    else (inl CastError_ObjectId, s).

(** A string was assigned to a field that holds a reference: the field
    stores [canon id]; when the store does not accept the string the
    document fails validation on [save()]. *)
Definition check_ref (id : string) (d : Doc) : Doc :=
  mkDoc (doc_id d) (doc_post d) (doc_invalid d || negb (isObjectId id)).

(** [Post.find({}).sort({ date: -1 })] *)
Definition Post_find_sort_date_desc : M (list (string * Post)) :=
  fun s => (inr (merge_sort newer_first (map_to_list (db s))), s).

(** [post.save()] of a loaded document *)
Definition save (d : Doc) : M unit :=
  fun s =>
    if doc_invalid d then (inl ValidationError, s)
    else (inr tt, mkSt (<[doc_id d := doc_post d]> (db s)) (directory s)
                       (statusCode s) (sent s)
                       (trace s ++ [EvSave (doc_id d) (doc_post d)])).

(** [newPost.save()] of a document built with [new Post(..)] *)
Definition save_new (d : Doc) : M unit :=
  fun s =>
    if doc_invalid d then (inl ValidationError, s)
    else
      match db s !! doc_id d with
      | Some _ => (inl DuplicateKey, s)
      | None => save d s
      end.

(** [post.remove()] *)
Definition remove (d : Doc) : M unit :=
  fun s => (inr tt, mkSt (delete (doc_id d) (db s)) (directory s)
                         (statusCode s) (sent s)
                         (trace s ++ [EvRemove (doc_id d)])).

(** [user.name], [user.avatar] on the result of [User.findById] *)
Definition deref (u : option User) : M User :=
  match u with Some u => ret u | None => throw TypeError end.

(** [post.comments = arr] *)
Definition cast_slot (sl : Slot) : option Comment :=
  match sl with SComment c => Some c | SRes => castRes end.

Definition assign_comments (arr : list Slot) (d : Doc) : Doc :=
  match mapM cast_slot arr with
  | Some cs => mkDoc (doc_id d) (set_comments cs (doc_post d)) (doc_invalid d)
  | None => mkDoc (doc_id d) (doc_post d) true
  end.

Definition with_post (f : Post -> Post) (d : Doc) : Doc :=
  mkDoc (doc_id d) (f (doc_post d)) (doc_invalid d).

(** ** Validation: [check('text', 'Text is required').not().isEmpty()] *)

Definition validationResult (req : Req) : list string :=
  match req_text req with
  | Some (String _ _) => []
  | _ => ["Text is required"]
  end.

Definition isEmpty {A} (l : list A) : bool :=
  match l with [] => true | _ => false end.

(** [req.body.text] *)
Definition body_text (req : Req) : string := default "" (req_text req).

(** ** The [catch] blocks *)

Definition server_error (err : Exn) : M unit :=
  console_error err >> status 500 >> send (BText "Server Error").

Definition post_error (err : Exn) : M unit :=
  console_error err >>
  if kind_is_ObjectId err
  then status 404 >> json (BMsg "Post not found")
  else status 500 >> send (BText "Server Error").

(** ** The handlers *)

(** POST api/posts *)
Definition create_post (env : Env) (req : Req) : M unit :=
  let errors := validationResult req in
  if negb (isEmpty errors) then status 400 >> json (BErrors errors)
  else
    try_catch
      (let! user := User_findById (req_user_id req) in
       let! u := deref user in
       let newPost :=
         check_ref (req_user_id req)
           (mkDoc (fresh_id env)
                  (mkPost (body_text req) (user_name u) (user_avatar u)
                          (canon (req_user_id req)) (now env) [] [])
                  false) in
       save_new newPost >>
       json (BPost (doc_id newPost) (doc_post newPost)))
      server_error.

(** GET api/posts *)
Definition get_posts (req : Req) : M unit :=
  try_catch
    (let! posts := Post_find_sort_date_desc in
     json (BPosts posts))
    server_error.

(** GET api/posts/:post_id *)
Definition get_post (req : Req) : M unit :=
  try_catch
    (let! post := Post_findById (req_post_id req) in
     match post with
     | None => status 404 >> json (BMsg "Post not found")
     | Some post => json (BPost (doc_id post) (doc_post post))
     end)
    post_error.

(** DELETE api/posts/:post_id *)
Definition delete_post (req : Req) : M unit :=
  try_catch
    (let! post := Post_findById (req_post_id req) in
     match post with
     | None => status 404 >> json (BMsg "Post not found")
     | Some post =>
         if negb (String.eqb (user (doc_post post)) (req_user_id req))
         then status 401 >> json (BMsg "User not authorized")
         else
           remove post >>
           json (BMsgPost "Post removed" (doc_id post) (doc_post post))
     end)
    post_error.

(** PUT api/posts/:post_id *)
Definition update_post (req : Req) : M unit :=
  let errors := validationResult req in
  if negb (isEmpty errors) then status 400 >> json (BErrors errors)
  else
    try_catch
      (let! post := Post_findById (req_post_id req) in
       match post with
       | None => status 404 >> json (BMsg "Post not found")
       | Some post =>
           if negb (String.eqb (user (doc_post post)) (req_user_id req))
           then status 401 >> json (BMsg "User not authorized")
           else
             let post := with_post (set_text (body_text req)) post in
             save post >>
             json (BMsgPost "Post updated" (doc_id post) (doc_post post))
       end)
      post_error.

(** [like.user.toString() === req.user.id] *)
Definition liked_by (req : Req) (like : Like) : bool :=
  String.eqb (like_user like) (req_user_id req).

(** PUT api/posts/:post_id/like *)
Definition like_post (env : Env) (req : Req) : M unit :=
  try_catch
    (let! post := Post_findById (req_post_id req) in
     match post with
     | None => status 404 >> json (BMsg "Post not found")
     | Some post =>
         if 0 <? Z.of_nat (length (List.filter (liked_by req) (likes (doc_post post))))
         then status 400 >> json (BMsg "Post already liked")
         else
           let post :=
             check_ref (req_user_id req)
               (with_post (fun p => set_likes
                             (unshift (mkLike (fresh_id env) (canon (req_user_id req)))
                                      (likes p)) p)
                          post) in
           save post >>
           json (BLikes (likes (doc_post post)))
     end)
    post_error.

(** PUT api/posts/:post_id/unlike *)
Definition unlike_post (req : Req) : M unit :=
  try_catch
    (let! post := Post_findById (req_post_id req) in
     match post with
     | None => status 404 >> json (BMsg "Post not found")
     | Some post =>
         if Z.of_nat (length (List.filter (liked_by req) (likes (doc_post post)))) =? 0
         then status 400 >> json (BMsg "Post has not yet been liked")
         else
           let removeIndex :=
             indexOf (List.map like_user (likes (doc_post post))) (req_user_id req) in
           let post :=
             with_post (fun p => set_likes (splice removeIndex 1 (likes p)) p) post in
           save post >>
           json (BLikes (likes (doc_post post)))
     end)
    post_error.

(** POST api/posts/:post_id/comments *)
Definition add_comment (env : Env) (req : Req) : M unit :=
  let errors := validationResult req in
  if negb (isEmpty errors) then status 400 >> json (BErrors errors)
  else
    try_catch
      (let! user := User_findById (req_user_id req) in
       let! post := Post_findById (req_post_id req) in
       match post with
       | None => status 404 >> json (BMsg "Post not found")
       | Some post =>
           let! u := deref user in
           let newComment :=
             mkComment (fresh_id env) (body_text req) (user_name u)
                       (user_avatar u) (canon (req_user_id req)) (now env) in
           let post :=
             check_ref (req_user_id req)
               (with_post (fun p => set_comments (unshift newComment (comments p)) p)
                          post) in
           save post >>
           json (BComments (comments (doc_post post)))
       end)
      post_error.

(** The callback of [post.comments.map] in the update-comment handler *)
Definition update_comment_cb (req : Req) (comment : Comment) : M Slot :=
  if String.eqb (comment_id comment) (req_comment_id req) then
    if negb (String.eqb (comment_user comment) (req_user_id req)) then
      status 401 >> json (BMsg "User not authorized") >> ret SRes
    else ret (SComment (set_comment_text (body_text req) comment))
  else ret (SComment comment).

(** PUT api/posts/:post_id/comments/:comment_id *)
Definition update_comment (req : Req) : M unit :=
  let errors := validationResult req in
  if negb (isEmpty errors) then status 400 >> json (BErrors errors)
  else
    try_catch
      (let! post := Post_findById (req_post_id req) in
       match post with
       | None => status 404 >> json (BMsg "Post not found")
       | Some post =>
           let! newCommentArray :=
             array_map (update_comment_cb req) (comments (doc_post post)) in
           let post := assign_comments newCommentArray post in
           save post >>
           json (BComments (comments (doc_post post)))
       end)
      post_error.

(** The callback of [post.comments.filter] in the delete-comment handler *)
Definition delete_comment_cb (req : Req) (comment : Comment) : M JsVal :=
  if String.eqb (comment_id comment) (req_comment_id req) then
    if negb (String.eqb (comment_user comment) (req_user_id req)) then
      status 401 >> json (BMsg "User not authorized") >> ret VRes
    else ret (VBool false)
  else ret (VBool true).

(** DELETE api/posts/:post_id/comments/:comment_id *)
Definition delete_comment (req : Req) : M unit :=
  try_catch
    (let! post := Post_findById (req_post_id req) in
     match post with
     | None => status 404 >> json (BMsg "Post not found")
     | Some post =>
         let! newCommentArray :=
           array_filter (delete_comment_cb req) (comments (doc_post post)) in
         let post := with_post (set_comments newCommentArray) post in
         save post >>
         json (BComments (comments (doc_post post)))
     end)
    post_error.

End Routes.

(** ** The router *)

Inductive Op :=
| CreatePost | GetPosts | GetPost | DeletePost | UpdatePost
| LikePost | UnlikePost | AddComment | UpdateComment | DeleteComment.

Section Router.

Variable isObjectId : string -> bool.
Variable canon : string -> string.
Variable castRes : option Comment.

Definition handler (op : Op) (env : Env) (req : Req) : M unit :=
  match op with
  | CreatePost => create_post isObjectId canon env req
  | GetPosts => get_posts req
  | GetPost => get_post isObjectId canon req
  | DeletePost => delete_post isObjectId canon req
  | UpdatePost => update_post isObjectId canon req
  | LikePost => like_post isObjectId canon env req
  | UnlikePost => unlike_post isObjectId canon req
  | AddComment => add_comment isObjectId canon env req
  | UpdateComment => update_comment isObjectId canon castRes req
  | DeleteComment => delete_comment isObjectId canon req
  end.

(** Routes with a [:post_id] parameter *)
Definition has_post_id (op : Op) : bool :=
  match op with CreatePost | GetPosts => false | _ => true end.

(** Routes with the [check('text', ..)] middleware *)
Definition validated (op : Op) : bool :=
  match op with
  | CreatePost | UpdatePost | AddComment | UpdateComment => true
  | _ => false
  end.

(** The collection after serving one request on a fresh response. *)
Definition serve (op : Op) (env : Env) (req : Req)
    (posts : gmap string Post) (us : gmap string User) : gmap string Post :=
  db (snd (handler op env req (init posts us))).

(** Collections reachable from the empty one by serving requests one
    after the other.  Every request has passed the auth middleware, so
    its [req.user.id] is the identifier of a stored user as the store
    prints it. *)
Inductive reachable : gmap string Post -> Prop :=
| reachable_empty : reachable ∅
| reachable_serve posts op env req us :
    reachable posts ->
    canonical isObjectId canon (req_user_id req) ->
    reachable (serve op env req posts us).

End Router.

(** A sample store reference syntax for the examples: 24 hexadecimal
    digits. *)
Definition is_hex (a : Ascii.ascii) : bool :=
  let n := Ascii.nat_of_ascii a in
  ((48 <=? n) && (n <=? 57) || (97 <=? n) && (n <=? 102) || (65 <=? n) && (n <=? 70))%nat.

Fixpoint all_hex (s : string) : bool :=
  match s with
  | EmptyString => true
  | String a s' => is_hex a && all_hex s'
  end.

Definition hex24 (s : string) : bool :=
  (String.length s =? 24)%nat && all_hex s.

(** The matching printed form: hexadecimal digits in lower case. *)
Definition lower_digit (a : Ascii.ascii) : Ascii.ascii :=
  let n := Ascii.nat_of_ascii a in
  if ((65 <=? n) && (n <=? 70))%nat then Ascii.ascii_of_nat (n + 32) else a.

Fixpoint lower_hex (s : string) : string :=
  match s with
  | EmptyString => EmptyString
  | String a s' => String (lower_digit a) (lower_hex s')
  end.

(** Sample data *)
Definition alice_id := "5f0000000000000000000a11".
Definition bob_id := "5f0000000000000000000b0b".
Definition post1_id := "5f0000000000000000000001".
Definition comment1_id := "5f00000000000000000000c1".

Definition alice := mkUser "Alice" "alice.png".
Definition bob := mkUser "Bob" "bob.png".

Definition sample_users : gmap string User :=
  <[alice_id := alice]> (<[bob_id := bob]> ∅).

Definition comment1 : Comment :=
  mkComment comment1_id "first" "Alice" "alice.png" alice_id 10.

Definition post1 : Post :=
  mkPost "hello" "Alice" "alice.png" alice_id 5 [] [comment1].

Definition sample_posts : gmap string Post := <[post1_id := post1]> ∅.

Definition sample_env : Env := mkEnv "5f00000000000000000000f1" 20.

(** ** Responses the handlers share *)

Definition not_found : Response := mkResponse 404 (BMsg "Post not found").

Definition unauthorized : Response := mkResponse 401 (BMsg "User not authorized").

Definition already_liked : Response := mkResponse 400 (BMsg "Post already liked").

Definition not_yet_liked : Response :=
  mkResponse 400 (BMsg "Post has not yet been liked").

(** The failure of the like and unlike routes that is not a lookup
    failure. *)
Definition like_failure (op : Op) : option Response :=
  match op with
  | LikePost => Some already_liked
  | UnlikePost => Some not_yet_liked
  | _ => None
  end.

(** A subdocument a comment schema without required fields could make of
    the response object: fresh identifier, defaults elsewhere. *)
Definition res_as_comment : Comment :=
  mkComment "5f00000000000000000000f2" "" "" "" "" 30.

Definition liked_posts : gmap string Post :=
  <[post1_id := set_likes [mkLike "5f00000000000000000000e1" bob_id] post1]> ∅.

(** What one request may do to the collection, as far as likes go:
    nothing; remove a post; insert a new post with no likes; replace a
    post by one whose likes are among the old ones, in order; or, on the
    like route only, put one entry of a new author in front. *)
Inductive db_change (posts : gmap string Post) : Op -> gmap string Post -> Prop :=
| change_none op : db_change posts op posts
| change_remove op pid : db_change posts op (delete pid posts)
| change_create op pid p' :
    posts !! pid = None -> likes p' = [] ->
    db_change posts op (<[pid := p']> posts)
| change_update op pid p p' :
    posts !! pid = Some p -> sublist (likes p') (likes p) ->
    db_change posts op (<[pid := p']> posts)
| change_like pid p e :
    posts !! pid = Some p ->
    (forall l, l ∈ likes p -> like_user l ≠ like_user e) ->
    db_change posts LikePost (<[pid := set_likes (e :: likes p) p]> posts).

(** At most one like per author on every post of the collection. *)
Definition likes_unique (posts : gmap string Post) : Prop :=
  forall pid p, posts !! pid = Some p -> NoDup (like_user <$> likes p).

(** A collection built by serving two requests on the empty one: Alice
    creates a post, Bob likes it. *)
Definition sample_created : gmap string Post :=
  serve hex24 lower_hex None CreatePost (mkEnv post1_id 5)
        (mkReq alice_id "" "" (Some "hello")) ∅ sample_users.

Definition sample_world : gmap string Post :=
  serve hex24 lower_hex None LikePost (mkEnv "5f00000000000000000000e1" 6)
        (mkReq bob_id post1_id "" None) sample_created sample_users.

(** ** Further responses and observations *)

Definition text_required : Response := mkResponse 400 (BErrors ["Text is required"]).

Definition server_error_response : Response := mkResponse 500 (BText "Server Error").

(** The responses that went out, read off the trace. *)
Definition responses (tr : list Event) : list Response :=
  omap (fun ev => match ev with EvSend r => Some r | _ => None end) tr.

(** The document a request is about: the one it creates, or the one its
    [:post_id] names. *)
Definition target (canon : string -> string)
    (op : Op) (env : Env) (req : Req) : string :=
  match op with
  | CreatePost => fresh_id env
  | _ => canon (req_post_id req)
  end.

(** The two routes that rewrite the comment list through an array
    callback. *)
Definition rewrites_comments (op : Op) : bool :=
  match op with UpdateComment | DeleteComment => true | _ => false end.

(** The trace and the response object agree on what went out. *)
Definition answered (s : St) : Prop :=
  responses (trace s) = match sent s with Some r => [r] | None => [] end.

(** The outcome of a handler in which exactly one response went out. *)
Definition answered_once (out : (Exn + unit) * St) : Prop :=
  exists r, sent (snd out) = Some r /\ responses (trace (snd out)) = [r].

(** The status and body pairs the routes are written to send: 200 with
    data, 400 with field errors or one of the two like messages, 401 and
    404 with their one message, 500 with the plain text. *)
Definition documented (r : Response) : bool :=
  match body r with
  | BPost _ _ | BPosts _ | BMsgPost _ _ _ | BLikes _ | BComments _ =>
      status_code r =? 200
  | BErrors _ => status_code r =? 400
  | BMsg m =>
      (status_code r =? 400)
        && (String.eqb m "Post already liked"
            || String.eqb m "Post has not yet been liked")
      || (status_code r =? 401) && String.eqb m "User not authorized"
      || (status_code r =? 404) && String.eqb m "Post not found"
  | BText t => (status_code r =? 500) && String.eqb t "Server Error"
  end.

(** A response object in a state the handlers keep: nothing sent and the
    status still the default, or a documented response sent. *)
Definition tidy (s : St) : Prop :=
  match sent s with
  | None => statusCode s = 200
  | Some r => documented r = true
  end.

Definition documented_outcome (out : (Exn + unit) * St) : Prop :=
  forall r, sent (snd out) = Some r -> documented r = true.

(** ** Further sample data *)

Definition carol_id := "5f0000000000000000000ca7".
Definition dave_id := "5f0000000000000000000da5".
Definition post2_id := "5f0000000000000000000002".

(** A post liked by Carol, Bob, Dave and (against the rule) Bob again. *)
Definition crowded_likes : list Like :=
  [mkLike "5f00000000000000000000e4" carol_id;
   mkLike "5f00000000000000000000e3" bob_id;
   mkLike "5f00000000000000000000e2" dave_id;
   mkLike "5f00000000000000000000e1" bob_id].

Definition crowded_posts : gmap string Post :=
  <[post1_id := set_likes crowded_likes post1]> ∅.

Definition post2 : Post :=
  mkPost "second" "Bob" "bob.png" bob_id 7 [] [].

Definition two_posts : gmap string Post :=
  <[post2_id := post2]> sample_posts.

(** ** Basic facts about the monad and the store *)

Lemma eqb_false_ne (a b : string) : a ≠ b -> String.eqb a b = false.
Proof. intros H. by apply String.eqb_neq. Qed.

Lemma validationResult_nil req :
  validationResult req = [] -> exists a t, req_text req = Some (String a t).
Proof.
  unfold validationResult. destruct (req_text req) as [[|a t]|]; try discriminate.
  eauto.
Qed.

Ltac run :=
  unfold handler, create_post, get_posts, get_post, delete_post, update_post,
    like_post, unlike_post, add_comment, update_comment, delete_comment,
    post_error, server_error, console_error, json, Post_find_sort_date_desc,
    save_new, deref, check_ref, with_post;
  unfold bind, try_catch, ret, throw, status, send, emit, save, remove,
    Post_findById, User_findById, init; simpl.

(** ** Scans of the like list *)

Lemma set_likes_id p : set_likes (likes p) p = p.
Proof. by destruct p. Qed.

Lemma set_comments_id p : set_comments (comments p) p = p.
Proof. by destruct p. Qed.

Lemma set_likes_set_likes ls ls' p : set_likes ls (set_likes ls' p) = set_likes ls p.
Proof. reflexivity. Qed.

Lemma filter_liked_by_nil req (ls : list Like) :
  (forall l, l ∈ ls -> like_user l ≠ req_user_id req) ->
  List.filter (liked_by req) ls = [].
Proof.
  induction ls as [|x ls IH]; intros H; simpl; [done|].
  unfold liked_by at 1. rewrite eqb_false_ne.
  - apply IH. intros l Hl. apply H. by right.
  - apply H. by left.
Qed.

Lemma filter_liked_by_nil_inv req (ls : list Like) :
  List.filter (liked_by req) ls = [] ->
  forall l, l ∈ ls -> like_user l ≠ req_user_id req.
Proof.
  induction ls as [|x ls IH]; simpl; intros H l Hl.
  - by apply elem_of_nil in Hl.
  - unfold liked_by at 1 in H.
    destruct (String.eqb_spec (like_user x) (req_user_id req)) as [|Hne];
      [discriminate|].
    apply elem_of_cons in Hl as [->|Hl]; [done|]. by apply IH.
Qed.

Lemma indexOf_from_first i (l1 : list string) x l2 :
  x ∉ l1 -> indexOf_from i (l1 ++ x :: l2) x = i + Z.of_nat (length l1).
Proof.
  revert i. induction l1 as [|y l1 IH]; intros i Hx; simpl.
  - rewrite String.eqb_refl. lia.
  - rewrite eqb_false_ne.
    + rewrite IH; [lia|]. intros ?. apply Hx. by right.
    + intros ->. apply Hx. by left.
Qed.

Lemma splice_one {A} (l1 : list A) x l2 :
  splice (Z.of_nat (length l1)) 1 (l1 ++ x :: l2) = l1 ++ l2.
Proof.
  unfold splice. rewrite length_app. simpl length.
  assert ((Z.of_nat (length l1) <? 0) = false) as -> by (apply Z.ltb_ge; lia).
  set (len := Z.of_nat (length l1 + S (length l2))).
  assert (Z.min (Z.of_nat (length l1)) len = Z.of_nat (length l1)) as ->
    by (unfold len; lia).
  assert (Z.min (Z.max 1 0) (len - Z.of_nat (length l1)) = 1) as ->
    by (unfold len; lia).
  rewrite Nat2Z.id.
  replace (Z.to_nat (Z.of_nat (length l1) + 1)) with (length l1 + 1)%nat by lia.
  rewrite take_app_length, drop_app_add. reflexivity.
Qed.

Lemma first_like_split req (ls : list Like) :
  (exists l, l ∈ ls /\ like_user l = req_user_id req) ->
  exists l1 l l2,
    ls = l1 ++ l :: l2 /\ like_user l = req_user_id req
    /\ (forall x, x ∈ l1 -> like_user x ≠ req_user_id req).
Proof.
  induction ls as [|y ls IH]; intros (l & Hl & Hu).
  - by apply elem_of_nil in Hl.
  - destruct (decide (like_user y = req_user_id req)) as [Hy|Hy].
    + exists [], y, ls. split_and!; [done|done|].
      intros x Hx. by apply elem_of_nil in Hx.
    + apply elem_of_cons in Hl as [->|Hl]; [done|].
      destruct IH as (l1 & l' & l2 & -> & Hu' & Hl1); [by eauto|].
      exists (y :: l1), l', l2. split_and!; [done|done|].
      intros x Hx. apply elem_of_cons in Hx as [->|Hx]; auto.
Qed.

Lemma filter_liked_by_cons req (l1 : list Like) l l2 :
  like_user l = req_user_id req ->
  exists n, length (List.filter (liked_by req) (l1 ++ l :: l2)) = S n.
Proof.
  intros Hu. rewrite List.filter_app, length_app. simpl.
  unfold liked_by at 2. rewrite Hu, String.eqb_refl. simpl.
  eexists. rewrite Nat.add_succ_r. reflexivity.
Qed.

Lemma indexOf_first_like req (l1 : list Like) l l2 :
  like_user l = req_user_id req ->
  (forall x, x ∈ l1 -> like_user x ≠ req_user_id req) ->
  indexOf (List.map like_user (l1 ++ l :: l2)) (req_user_id req)
  = Z.of_nat (length l1).
Proof.
  intros Hu Hl1. unfold indexOf. rewrite List.map_app. simpl. rewrite Hu.
  rewrite indexOf_from_first.
  - rewrite length_map. lia.
  - intros Hin. apply list_elem_of_In, List.in_map_iff in Hin
      as (x & Hx & Hin). apply list_elem_of_In in Hin. by apply (Hl1 x).
Qed.

Lemma lower_hex_sample :
  lower_hex alice_id = alice_id /\ lower_hex bob_id = bob_id
  /\ lower_hex post1_id = post1_id.
Proof. done. Qed.
(** ** Malformed post identifiers *)

(** C2: on every route with a [:post_id] parameter, a post identifier the
    store does not accept as a reference is answered with exactly the
    not-found response (404, one message), and the collection is left as
    it was.  On the three routes that validate the body first, this is the
    answer once validation has passed, which is when the lookup takes
    place. *)
Theorem C2_malformed_post_id_not_found
    (isObjectId : string -> bool) (canon : string -> string)
    (castRes : option Comment) (op : Op) (env : Env) (req : Req)
    (posts : gmap string Post) (us : gmap string User) :
  has_post_id op = true ->
  isObjectId (req_post_id req) = false ->
  (validated op = true -> validationResult req = []) ->
  handler isObjectId canon castRes op env req (init posts us) =
    (inr tt, mkSt posts us 404 (Some not_found)
               [EvLog CastError_ObjectId; EvSend not_found]).
Proof.
  intros Hid Hbad Hval.
  destruct op; try discriminate Hid; run;
    try (rewrite (Hval eq_refl); simpl);
    rewrite ?Hbad; try reflexivity.
  (* add-comment looks the caller up first *)
  destruct (isObjectId (req_user_id req)); reflexivity.
Qed.

Lemma C2_malformed_post_id_not_found_witness :
  handler hex24 lower_hex None UpdateComment sample_env
      (mkReq alice_id "not-an-id" comment1_id (Some "edited"))
      (init sample_posts sample_users) =
    (inr tt, mkSt sample_posts sample_users 404 (Some not_found)
               [EvLog CastError_ObjectId; EvSend not_found]).
Proof.
  apply (C2_malformed_post_id_not_found hex24 lower_hex None UpdateComment sample_env
           (mkReq alice_id "not-an-id" comment1_id (Some "edited"))
           sample_posts sample_users).
  - reflexivity.
  - reflexivity.
  - intros _. reflexivity.
Defined.

(** ** Post ownership *)

(** C7: on an existing post, delete-post and update-post by a caller who
    is not the author answer 401 and leave the collection as it was; by
    the author, delete-post removes the post and update-post (given a
    text that passes validation) stores the post with the new text in
    place of the old one and every other field as it was, and a fetch of
    the same identifier afterwards sees the result. *)
Theorem C7_post_owner_only
    (isObjectId : string -> bool) (canon : string -> string) (req : Req)
    (posts : gmap string Post) (us : gmap string User) (p : Post) :
  isObjectId (req_post_id req) = true ->
  posts !! canon (req_post_id req) = Some p ->
  let pid := canon (req_post_id req) in
  (user p ≠ req_user_id req ->
     delete_post isObjectId canon req (init posts us) =
       (inr tt, mkSt posts us 401 (Some unauthorized) [EvSend unauthorized])
     /\ (validationResult req = [] ->
         update_post isObjectId canon req (init posts us) =
           (inr tt, mkSt posts us 401 (Some unauthorized) [EvSend unauthorized])))
  /\
  (user p = req_user_id req ->
     (let r := mkResponse 200 (BMsgPost "Post removed" pid p) in
      delete_post isObjectId canon req (init posts us) =
        (inr tt, mkSt (delete pid posts) us 200 (Some r) [EvRemove pid; EvSend r])
      /\ get_post isObjectId canon req (init (delete pid posts) us) =
           (inr tt, mkSt (delete pid posts) us 404 (Some not_found)
                      [EvSend not_found]))
     /\ (forall t, req_text req = Some t -> t ≠ "" ->
         let p' := mkPost t (name p) (avatar p) (user p) (date p)
                          (likes p) (comments p) in
         let r := mkResponse 200 (BMsgPost "Post updated" pid p') in
         let r' := mkResponse 200 (BPost pid p') in
         update_post isObjectId canon req (init posts us) =
           (inr tt, mkSt (<[pid := p']> posts) us 200 (Some r)
                      [EvSave pid p'; EvSend r])
         /\ get_post isObjectId canon req (init (<[pid := p']> posts) us) =
              (inr tt, mkSt (<[pid := p']> posts) us 200 (Some r') [EvSend r']))).
Proof.
  intros Hid Hp pid. split.
  - intros Hne. apply eqb_false_ne in Hne. split.
    + run. rewrite Hid, Hp. simpl. rewrite Hne. reflexivity.
    + intros Hv. run. rewrite Hv. simpl. rewrite Hid, Hp. simpl.
      rewrite Hne. reflexivity.
  - intros Heq. apply String.eqb_eq in Heq. split.
    + split.
      * run. rewrite Hid, Hp. simpl. rewrite Heq. reflexivity.
      * run. rewrite Hid. unfold pid. rewrite lookup_delete_eq. reflexivity.
    + intros t Ht Hne. split.
      * run. unfold validationResult, body_text. rewrite Ht.
        destruct t as [|a t]; [done|]. simpl.
        rewrite Hid, Hp. simpl. rewrite Heq. reflexivity.
      * run. rewrite Hid. unfold pid. rewrite lookup_insert_eq. reflexivity.
Qed.

Lemma C7_post_owner_only_witness :
  update_post hex24 lower_hex (mkReq alice_id post1_id "" (Some "edited"))
      (init sample_posts sample_users) =
    (inr tt,
     mkSt (<[post1_id := mkPost "edited" "Alice" "alice.png" alice_id 5 []
                            [comment1]]> sample_posts)
       sample_users 200
       (Some (mkResponse 200
          (BMsgPost "Post updated" post1_id
             (mkPost "edited" "Alice" "alice.png" alice_id 5 [] [comment1]))))
       [EvSave post1_id
          (mkPost "edited" "Alice" "alice.png" alice_id 5 [] [comment1]);
        EvSend (mkResponse 200
          (BMsgPost "Post updated" post1_id
             (mkPost "edited" "Alice" "alice.png" alice_id 5 [] [comment1])))])
  /\ get_post hex24 lower_hex (mkReq alice_id post1_id "" (Some "edited"))
       (init (<[post1_id := mkPost "edited" "Alice" "alice.png" alice_id 5 []
                              [comment1]]> sample_posts) sample_users) =
     (inr tt,
      mkSt (<[post1_id := mkPost "edited" "Alice" "alice.png" alice_id 5 []
                             [comment1]]> sample_posts)
        sample_users 200
        (Some (mkResponse 200
           (BPost post1_id
              (mkPost "edited" "Alice" "alice.png" alice_id 5 [] [comment1]))))
        [EvSend (mkResponse 200
           (BPost post1_id
              (mkPost "edited" "Alice" "alice.png" alice_id 5 [] [comment1])))])
  /\ delete_post hex24 lower_hex (mkReq bob_id post1_id "" None)
       (init sample_posts sample_users) =
     (inr tt, mkSt sample_posts sample_users 401 (Some unauthorized)
                [EvSend unauthorized]).
Proof.
  pose proof (C7_post_owner_only hex24 lower_hex
                (mkReq alice_id post1_id "" (Some "edited"))
                sample_posts sample_users post1 eq_refl eq_refl) as [_ Hown].
  destruct (Hown eq_refl) as [_ Hupd].
  destruct (Hupd "edited" eq_refl) as [Hsave Hfetch]; [discriminate|].
  split; [exact Hsave|]. split; [exact Hfetch|].
  refine (proj1 (proj1 (C7_post_owner_only hex24 lower_hex
             (mkReq bob_id post1_id "" None)
             sample_posts sample_users post1 _ _) _)).
  - reflexivity.
  - reflexivity.
  - discriminate.
Defined.

(** ** Like and unlike *)

(** C5: on an existing post, when the caller has a like, unlike removes
    the first entry of the like list whose author is the caller, and
    nothing else: the entries before it and after it stay, in order; it
    saves the post and answers with the new list.  When the caller has no
    like it answers 400 'Post has not yet been liked'. *)
Theorem C5_unlike_removes_first_match
    (isObjectId : string -> bool) (canon : string -> string) (req : Req)
    (posts : gmap string Post) (us : gmap string User) (p : Post) :
  isObjectId (req_post_id req) = true ->
  posts !! canon (req_post_id req) = Some p ->
  let pid := canon (req_post_id req) in
  ((exists l, l ∈ likes p /\ like_user l = req_user_id req) ->
     exists l1 l l2,
       likes p = l1 ++ l :: l2
       /\ like_user l = req_user_id req
       /\ (forall x, x ∈ l1 -> like_user x ≠ req_user_id req)
       /\ let p' := mkPost (text p) (name p) (avatar p) (user p) (date p)
                           (l1 ++ l2) (comments p) in
          let r := mkResponse 200 (BLikes (l1 ++ l2)) in
          unlike_post isObjectId canon req (init posts us) =
            (inr tt, mkSt (<[pid := p']> posts) us 200 (Some r)
                       [EvSave pid p'; EvSend r]))
  /\
  ((forall l, l ∈ likes p -> like_user l ≠ req_user_id req) ->
     unlike_post isObjectId canon req (init posts us) =
       (inr tt, mkSt posts us 400 (Some not_yet_liked) [EvSend not_yet_liked])).
Proof.
  intros Hid Hp pid. split.
  - intros Hex. destruct (first_like_split req _ Hex) as (l1 & l & l2 & Hls & Hu & Hl1).
    exists l1, l, l2. split_and!; [done..|].
    run. rewrite Hid, Hp. simpl. rewrite Hls.
    destruct (filter_liked_by_cons req l1 l l2 Hu) as [n ->].
    rewrite indexOf_first_like, splice_one by done.
    reflexivity.
  - intros Hno. run. rewrite Hid, Hp. simpl.
    rewrite filter_liked_by_nil by done. reflexivity.
Qed.

(** Bob unlikes a post liked by Carol, Bob, Dave and Bob: his first entry
    goes, Carol's before it and Dave's and Bob's second one after it
    stay. *)
Lemma C5_unlike_removes_first_match_witness :
  unlike_post hex24 lower_hex (mkReq bob_id post1_id "" None)
      (init crowded_posts sample_users) =
    (inr tt,
     mkSt (<[post1_id :=
               mkPost "hello" "Alice" "alice.png" alice_id 5
                 [mkLike "5f00000000000000000000e4" carol_id;
                  mkLike "5f00000000000000000000e2" dave_id;
                  mkLike "5f00000000000000000000e1" bob_id]
                 [comment1]]> crowded_posts)
          sample_users 200
          (Some (mkResponse 200 (BLikes
             [mkLike "5f00000000000000000000e4" carol_id;
              mkLike "5f00000000000000000000e2" dave_id;
              mkLike "5f00000000000000000000e1" bob_id])))
          [EvSave post1_id
             (mkPost "hello" "Alice" "alice.png" alice_id 5
                [mkLike "5f00000000000000000000e4" carol_id;
                 mkLike "5f00000000000000000000e2" dave_id;
                 mkLike "5f00000000000000000000e1" bob_id]
                [comment1]);
           EvSend (mkResponse 200 (BLikes
             [mkLike "5f00000000000000000000e4" carol_id;
              mkLike "5f00000000000000000000e2" dave_id;
              mkLike "5f00000000000000000000e1" bob_id]))]).
Proof.
  destruct (proj1 (C5_unlike_removes_first_match hex24 lower_hex
              (mkReq bob_id post1_id "" None) crowded_posts sample_users
              (set_likes crowded_likes post1) eq_refl eq_refl))
    as (l1 & l & l2 & Hls & Hu & Hl1 & Hrun).
  - exists (mkLike "5f00000000000000000000e3" bob_id). split; [|reflexivity].
    right. by left.
  - (* the theorem's split of the list is the one at Bob's first entry *)
    destruct l1 as [|x1 l1]; simpl in Hls.
    { injection Hls as <- _. discriminate Hu. }
    injection Hls as <- Hls.
    destruct l1 as [|x2 l1]; simpl in Hls.
    + injection Hls as <- <-. exact Hrun.
    + injection Hls as <- _. exfalso. apply (Hl1 (mkLike "5f00000000000000000000e3" bob_id)).
      * right. by left.
      * reflexivity.
Defined.

(** C4: on an existing post the caller has no like on, like succeeds and
    puts the caller's entry in front; unlike by the same caller then
    succeeds and leaves the like list, the post and the whole collection
    as they were before the like.  The caller's identifier is in the
    spelling the store prints, as a token carries it. *)
Theorem C4_like_unlike_round_trip
    (isObjectId : string -> bool) (canon : string -> string)
    (env : Env) (req : Req)
    (posts : gmap string Post) (us : gmap string User) (p : Post) :
  isObjectId (req_post_id req) = true ->
  posts !! canon (req_post_id req) = Some p ->
  canonical isObjectId canon (req_user_id req) ->
  (forall l, l ∈ likes p -> like_user l ≠ req_user_id req) ->
  let pid := canon (req_post_id req) in
  let entry := mkLike (fresh_id env) (req_user_id req) in
  let p1 := mkPost (text p) (name p) (avatar p) (user p) (date p)
                   (entry :: likes p) (comments p) in
  let r1 := mkResponse 200 (BLikes (entry :: likes p)) in
  let r2 := mkResponse 200 (BLikes (likes p)) in
  like_post isObjectId canon env req (init posts us) =
    (inr tt, mkSt (<[pid := p1]> posts) us 200 (Some r1) [EvSave pid p1; EvSend r1])
  /\ unlike_post isObjectId canon req (init (<[pid := p1]> posts) us) =
    (inr tt, mkSt posts us 200 (Some r2) [EvSave pid p; EvSend r2]).
Proof.
  intros Hid Hp [Hcid Hcanon] Hno pid entry p1 r1 r2. split.
  - run. rewrite Hid, Hp. simpl.
    rewrite filter_liked_by_nil by done. simpl.
    rewrite Hcid, Hcanon. reflexivity.
  - run. rewrite Hid. unfold pid. rewrite lookup_insert_eq. simpl.
    unfold liked_by at 1. simpl. rewrite String.eqb_refl. simpl.
    unfold indexOf. simpl. rewrite String.eqb_refl.
    change (splice 0 1 (entry :: likes p))
      with (splice (Z.of_nat (length (@nil Like))) 1 ([] ++ entry :: likes p)).
    rewrite splice_one. simpl.
    rewrite insert_insert_eq.
    change (set_likes (likes p) p1) with (set_likes (likes p) p).
    rewrite set_likes_id, insert_id by done. reflexivity.
Qed.

Lemma C4_like_unlike_round_trip_witness :
  like_post hex24 lower_hex sample_env (mkReq bob_id post1_id "" None)
      (init sample_posts sample_users) =
    (inr tt,
     mkSt (<[post1_id := mkPost "hello" "Alice" "alice.png" alice_id 5
                           [mkLike (fresh_id sample_env) bob_id] [comment1]]>
             sample_posts)
          sample_users 200
          (Some (mkResponse 200 (BLikes [mkLike (fresh_id sample_env) bob_id])))
          [EvSave post1_id
             (mkPost "hello" "Alice" "alice.png" alice_id 5
                [mkLike (fresh_id sample_env) bob_id] [comment1]);
           EvSend (mkResponse 200 (BLikes [mkLike (fresh_id sample_env) bob_id]))])
  /\ unlike_post hex24 lower_hex (mkReq bob_id post1_id "" None)
       (init (<[post1_id := mkPost "hello" "Alice" "alice.png" alice_id 5
                              [mkLike (fresh_id sample_env) bob_id] [comment1]]>
                sample_posts) sample_users) =
     (inr tt, mkSt sample_posts sample_users 200
                (Some (mkResponse 200 (BLikes [])))
                [EvSave post1_id post1; EvSend (mkResponse 200 (BLikes []))]).
Proof.
  refine (C4_like_unlike_round_trip hex24 lower_hex sample_env
            (mkReq bob_id post1_id "" None) sample_posts sample_users post1 _ _ _ _).
  - reflexivity.
  - reflexivity.
  - split; reflexivity.
  - intros l Hl. simpl in Hl. by apply elem_of_nil in Hl.
Defined.

(** C10: when the like route answers 'Post already liked', or the unlike
    route answers 'Post has not yet been liked', that send is the only
    effect of the request: nothing was saved or removed and the
    collection is the one the request started with. *)
Theorem C10_like_failures_do_not_save
    (isObjectId : string -> bool) (canon : string -> string)
    (castRes : option Comment)
    (op : Op) (env : Env) (req : Req)
    (posts : gmap string Post) (us : gmap string User) (r : Response) :
  like_failure op = Some r ->
  sent (snd (handler isObjectId canon castRes op env req (init posts us))) = Some r ->
  handler isObjectId canon castRes op env req (init posts us) =
    (inr tt, mkSt posts us 400 (Some r) [EvSend r]).
Proof.
  intros Hop. destruct op; try discriminate Hop;
    injection Hop as <-; run;
    destruct (isObjectId (req_post_id req)); simpl; try discriminate;
    destruct (posts !! canon (req_post_id req)) as [p|]; simpl; try discriminate.
  - destruct (0 <? Z.of_nat (length (List.filter (liked_by req) (likes p))));
      simpl; [reflexivity |].
    destruct (isObjectId (req_user_id req)); simpl; discriminate.
  - destruct (Z.of_nat (length (List.filter (liked_by req) (likes p))) =? 0);
      simpl; [reflexivity | discriminate].
Qed.

Lemma C10_like_failures_do_not_save_witness :
  handler hex24 lower_hex None LikePost sample_env (mkReq bob_id post1_id "" None)
      (init liked_posts sample_users) =
    (inr tt, mkSt liked_posts sample_users 400 (Some already_liked)
               [EvSend already_liked]).
Proof.
  apply (C10_like_failures_do_not_save hex24 lower_hex None LikePost sample_env
           (mkReq bob_id post1_id "" None) liked_posts sample_users already_liked);
    reflexivity.
Defined.

(** ** The array callbacks *)

Lemma update_comment_cb_db req c s :
  db (snd (update_comment_cb req c s)) = db s.
Proof.
  unfold update_comment_cb.
  destruct (String.eqb (comment_id c) (req_comment_id req)); [|done].
  destruct (negb (String.eqb (comment_user c) (req_user_id req))); [|done].
  run. destruct (sent s); done.
Qed.

Lemma delete_comment_cb_db req c s :
  db (snd (delete_comment_cb req c s)) = db s.
Proof.
  unfold delete_comment_cb.
  destruct (String.eqb (comment_id c) (req_comment_id req)); [|done].
  destruct (negb (String.eqb (comment_user c) (req_user_id req))); [|done].
  run. destruct (sent s); done.
Qed.

Lemma array_map_db req cs s :
  db (snd (array_map (update_comment_cb req) cs s)) = db s.
Proof.
  revert s. induction cs as [|c cs IH]; intros s; simpl; [done|].
  unfold bind. pose proof (update_comment_cb_db req c s) as Hc.
  destruct (update_comment_cb req c s) as [[e|y] s1]; simpl in *; [done|].
  pose proof (IH s1) as Hr.
  destruct (array_map (update_comment_cb req) cs s1) as [[e|ys] s2];
    simpl in *; congruence.
Qed.

Lemma array_filter_db req cs s :
  db (snd (array_filter (delete_comment_cb req) cs s)) = db s.
Proof.
  revert s. induction cs as [|c cs IH]; intros s; simpl; [done|].
  unfold bind. pose proof (delete_comment_cb_db req c s) as Hc.
  destruct (delete_comment_cb req c s) as [[e|y] s1]; simpl in *; [done|].
  pose proof (IH s1) as Hr.
  destruct (array_filter (delete_comment_cb req) cs s1) as [[e|ys] s2];
    simpl in *; congruence.
Qed.

(** With no comment of the given identifier, both callbacks pass every
    comment through and touch nothing. *)
Lemma array_map_no_match req (cs : list Comment) s :
  (forall c, c ∈ cs -> comment_id c ≠ req_comment_id req) ->
  array_map (update_comment_cb req) cs s = (inr (List.map SComment cs), s).
Proof.
  induction cs as [|c cs IH]; intros H; simpl; [done|].
  unfold bind, update_comment_cb at 1.
  rewrite eqb_false_ne by (apply H; by left).
  unfold ret at 1. rewrite IH; [done|]. intros c' Hc'. apply H. by right.
Qed.

Lemma array_filter_no_match req (cs : list Comment) s :
  (forall c, c ∈ cs -> comment_id c ≠ req_comment_id req) ->
  array_filter (delete_comment_cb req) cs s = (inr cs, s).
Proof.
  induction cs as [|c cs IH]; intros H; simpl; [done|].
  unfold bind, delete_comment_cb at 1.
  rewrite eqb_false_ne by (apply H; by left).
  unfold ret at 1. rewrite IH; [done|]. intros c' Hc'. apply H. by right.
Qed.

Lemma mapM_cast_comments castRes (cs : list Comment) :
  mapM (cast_slot castRes) (List.map SComment cs) = Some cs.
Proof.
  induction cs as [|c cs IH]; simpl; [done|]. by rewrite IH.
Qed.

(** ** Comments *)

(** C6: on an existing post, with a text that passes validation and a
    caller the directory knows, add-comment puts exactly one new comment
    in front of the comment list: it carries the text, the caller's name
    and avatar from the directory and the caller's identifier; the
    comments that were there follow it unchanged, so the list is one
    longer; the post is saved and the answer is the new list.  The
    caller's identifier is stored in the spelling the store prints. *)
Theorem C6_add_comment_prepends
    (isObjectId : string -> bool) (canon : string -> string)
    (env : Env) (req : Req)
    (posts : gmap string Post) (us : gmap string User)
    (p : Post) (u : User) (t : string) :
  isObjectId (req_post_id req) = true ->
  posts !! canon (req_post_id req) = Some p ->
  isObjectId (req_user_id req) = true ->
  us !! canon (req_user_id req) = Some u ->
  req_text req = Some t ->
  t ≠ "" ->
  let pid := canon (req_post_id req) in
  let newComment :=
    mkComment (fresh_id env) t (user_name u) (user_avatar u)
              (canon (req_user_id req)) (now env) in
  let p' := mkPost (text p) (name p) (avatar p) (user p) (date p) (likes p)
                   (newComment :: comments p) in
  let r := mkResponse 200 (BComments (newComment :: comments p)) in
  add_comment isObjectId canon env req (init posts us) =
    (inr tt, mkSt (<[pid := p']> posts) us 200 (Some r) [EvSave pid p'; EvSend r])
  /\ length (comments p') = S (length (comments p)).
Proof.
  intros Hid Hp Hcid Hu Ht Hne pid newComment p' r. split; [|done].
  run. unfold validationResult, body_text. rewrite Ht.
  destruct t as [|a t]; [done|]. simpl.
  rewrite Hcid. simpl. rewrite Hid. simpl. rewrite Hp, Hu. reflexivity.
Qed.

Lemma C6_add_comment_prepends_witness :
  add_comment hex24 lower_hex sample_env (mkReq bob_id post1_id "" (Some "nice"))
      (init sample_posts sample_users) =
    (inr tt,
     mkSt (<[post1_id := set_comments
               [mkComment (fresh_id sample_env) "nice" "Bob" "bob.png" bob_id 20;
                comment1] post1]> sample_posts)
          sample_users 200
          (Some (mkResponse 200 (BComments
             [mkComment (fresh_id sample_env) "nice" "Bob" "bob.png" bob_id 20;
              comment1])))
          [EvSave post1_id
             (set_comments
                [mkComment (fresh_id sample_env) "nice" "Bob" "bob.png" bob_id 20;
                 comment1] post1);
           EvSend (mkResponse 200 (BComments
             [mkComment (fresh_id sample_env) "nice" "Bob" "bob.png" bob_id 20;
              comment1]))]).
Proof.
  refine (proj1 (C6_add_comment_prepends hex24 lower_hex sample_env
            (mkReq bob_id post1_id "" (Some "nice")) sample_posts sample_users
            post1 bob "nice" _ _ _ _ _ _)); try reflexivity.
  discriminate.
Defined.

(** C9: on an existing post none of whose comments has the given comment
    identifier (whatever its syntax: the identifier is only compared as a
    string), update-comment (given a text that passes validation) and
    delete-comment save the post as it was and answer 200 with the
    comment list as it was; no 404 is sent, and the collection is the
    same afterwards. *)
Theorem C9_unknown_comment_is_success
    (isObjectId : string -> bool) (canon : string -> string)
    (castRes : option Comment) (req : Req)
    (posts : gmap string Post) (us : gmap string User) (p : Post) :
  isObjectId (req_post_id req) = true ->
  posts !! canon (req_post_id req) = Some p ->
  (forall c, c ∈ comments p -> comment_id c ≠ req_comment_id req) ->
  let pid := canon (req_post_id req) in
  let r := mkResponse 200 (BComments (comments p)) in
  (validationResult req = [] ->
     update_comment isObjectId canon castRes req (init posts us) =
       (inr tt, mkSt posts us 200 (Some r) [EvSave pid p; EvSend r]))
  /\ delete_comment isObjectId canon req (init posts us) =
       (inr tt, mkSt posts us 200 (Some r) [EvSave pid p; EvSend r]).
Proof.
  intros Hid Hp Hno pid r. split.
  - intros Hv. run. rewrite Hv. simpl. rewrite Hid, Hp. simpl.
    rewrite array_map_no_match by done.
    unfold assign_comments. rewrite mapM_cast_comments. simpl.
    rewrite set_comments_id, insert_id by done. reflexivity.
  - run. rewrite Hid, Hp. simpl.
    rewrite array_filter_no_match by done. simpl.
    rewrite set_comments_id, insert_id by done. reflexivity.
Qed.

Lemma C9_unknown_comment_is_success_witness :
  delete_comment hex24 lower_hex (mkReq bob_id post1_id "no such comment" None)
      (init sample_posts sample_users) =
    (inr tt, mkSt sample_posts sample_users 200
               (Some (mkResponse 200 (BComments [comment1])))
               [EvSave post1_id post1;
                EvSend (mkResponse 200 (BComments [comment1]))]).
Proof.
  refine (proj2 (C9_unknown_comment_is_success hex24 lower_hex None
            (mkReq bob_id post1_id "no such comment" None)
            sample_posts sample_users post1 _ _ _)).
  - reflexivity.
  - reflexivity.
  - intros c Hc. apply list_elem_of_singleton in Hc as ->. discriminate.
Defined.

(** ** Listing *)

#[global] Instance newer_first_total : Total newer_first.
Proof. intros a b. unfold newer_first. lia. Qed.

#[global] Instance newer_first_trans : Transitive newer_first.
Proof. intros a b c. unfold newer_first. lia. Qed.

(** C8: list-posts answers 200 with a list that holds every post of the
    collection exactly once and nothing else (a permutation of the
    collection: no filter, no page), ordered so that no post comes before
    a post with a later creation date. *)
Theorem C8_list_posts_newest_first
    (req : Req) (posts : gmap string Post) (us : gmap string User) :
  exists l,
    get_posts req (init posts us) =
      (inr tt, mkSt posts us 200 (Some (mkResponse 200 (BPosts l)))
                 [EvSend (mkResponse 200 (BPosts l))])
    /\ l ≡ₚ map_to_list posts
    /\ (forall id p, (id, p) ∈ l <-> posts !! id = Some p)
    /\ StronglySorted newer_first l
    /\ (forall i j a b, l !! i = Some a -> l !! j = Some b -> (i < j)%nat ->
          date (snd b) <= date (snd a)).
Proof.
  exists (merge_sort newer_first (map_to_list posts)).
  assert (merge_sort newer_first (map_to_list posts) ≡ₚ map_to_list posts) as Hperm
    by apply merge_sort_Permutation.
  assert (StronglySorted newer_first (merge_sort newer_first (map_to_list posts)))
    as Hsorted by (apply (StronglySorted_merge_sort newer_first); apply _).
  split_and!; [reflexivity | done | | done |].
  - intros id p. rewrite Hperm. apply elem_of_map_to_list.
  - revert Hsorted. generalize (merge_sort newer_first (map_to_list posts)).
    intros l Hl. induction Hl as [|x l Hl IH Hx]; intros i j a b Hi Hj Hij.
    + by rewrite lookup_nil in Hi.
    + destruct j as [|j]; [lia|]. simpl in Hj. destruct i as [|i]; simpl in Hi.
      * injection Hi as ->. rewrite Forall_forall in Hx. apply Hx.
        by eapply list_elem_of_lookup_2.
      * eapply IH; [done..|lia].
Qed.

(** ** Comment ownership *)

(** When the one comment with the given identifier belongs to someone
    else, the filter callback of delete-comment sends the 401 and hands
    the response object back to [filter], which reads it as "keep": the
    scan goes on and returns the whole list. *)
Lemma array_filter_foreign req (cs1 : list Comment) c cs2 s :
  (forall x, x ∈ cs1 -> comment_id x ≠ req_comment_id req) ->
  (forall x, x ∈ cs2 -> comment_id x ≠ req_comment_id req) ->
  comment_id c = req_comment_id req ->
  comment_user c ≠ req_user_id req ->
  sent s = None ->
  array_filter (delete_comment_cb req) (cs1 ++ c :: cs2) s =
    (inr (cs1 ++ c :: cs2),
     mkSt (db s) (directory s) 401 (Some unauthorized)
          (trace s ++ [EvSend unauthorized])).
Proof.
  intros H1 H2 Hc Hu Hs.
  induction cs1 as [|x cs1 IH]; simpl.
  - unfold bind, delete_comment_cb at 1.
    rewrite Hc, String.eqb_refl, eqb_false_ne by done. simpl.
    run. rewrite Hs. simpl. rewrite array_filter_no_match by done. reflexivity.
  - unfold bind, delete_comment_cb at 1.
    rewrite eqb_false_ne by (apply H1; by left). unfold ret at 1.
    rewrite IH; [done|]. intros y Hy. apply H1. by right.
Qed.

(** The request is not aborted: delete-comment goes on to save the post
    and to attempt the success response, which throws because the 401 is
    already out; the [catch] block's own 500 throws in turn and the
    handler ends with that exception. *)
Lemma delete_comment_foreign_goes_on
    (isObjectId : string -> bool) (canon : string -> string) (req : Req)
    (posts : gmap string Post) (us : gmap string User) (p : Post) cs1 c cs2 :
  isObjectId (req_post_id req) = true ->
  posts !! canon (req_post_id req) = Some p ->
  comments p = cs1 ++ c :: cs2 ->
  (forall x, x ∈ cs1 -> comment_id x ≠ req_comment_id req) ->
  (forall x, x ∈ cs2 -> comment_id x ≠ req_comment_id req) ->
  comment_id c = req_comment_id req ->
  comment_user c ≠ req_user_id req ->
  delete_comment isObjectId canon req (init posts us) =
    (inl ERR_HTTP_HEADERS_SENT,
     mkSt posts us 500 (Some unauthorized)
          [EvSend unauthorized; EvSave (canon (req_post_id req)) p;
           EvLog ERR_HTTP_HEADERS_SENT]).
Proof.
  intros Hid Hp Hcs H1 H2 Hc Hu.
  run. rewrite Hid, Hp. simpl. rewrite Hcs.
  rewrite array_filter_foreign by done. simpl.
  rewrite <- Hcs, set_comments_id, insert_id by done. reflexivity.
Qed.

(** C1 (the code does otherwise): a request to delete or update a comment
    that exists and belongs to another user is answered 401, but it is
    not aborted.  Bob asks to delete, then to update, Alice's comment on
    her post.  delete-comment sends the 401, then saves the post and
    attempts the success response; update-comment sends the 401, puts the
    response object where the comment was and calls save: the comment is
    replaced in the collection when the schema casts the object, and save
    rejects when it does not.  Either way the handler ends in an
    uncaught exception. *)
Theorem C1_foreign_comment_request_goes_on :
  delete_comment hex24 lower_hex (mkReq bob_id post1_id comment1_id None)
      (init sample_posts sample_users) =
    (inl ERR_HTTP_HEADERS_SENT,
     mkSt sample_posts sample_users 500 (Some unauthorized)
          [EvSend unauthorized; EvSave post1_id post1;
           EvLog ERR_HTTP_HEADERS_SENT])
  /\ update_comment hex24 lower_hex (Some res_as_comment)
       (mkReq bob_id post1_id comment1_id (Some "edited"))
       (init sample_posts sample_users) =
     (inl ERR_HTTP_HEADERS_SENT,
      mkSt (<[post1_id := set_comments [res_as_comment] post1]> sample_posts)
           sample_users 500 (Some unauthorized)
           [EvSend unauthorized;
            EvSave post1_id (set_comments [res_as_comment] post1);
            EvLog ERR_HTTP_HEADERS_SENT])
  /\ update_comment hex24 lower_hex None
       (mkReq bob_id post1_id comment1_id (Some "edited"))
       (init sample_posts sample_users) =
     (inl ERR_HTTP_HEADERS_SENT,
      mkSt sample_posts sample_users 500 (Some unauthorized)
           [EvSend unauthorized; EvLog ValidationError]).
Proof. split_and!; vm_compute; reflexivity. Qed.

(** The same on the update route: the map callback sends the 401 and
    hands the response object back to [map], which stores it where the
    comment was; the scan goes on. *)
Lemma array_map_foreign req (cs1 : list Comment) c cs2 s :
  (forall x, x ∈ cs1 -> comment_id x ≠ req_comment_id req) ->
  (forall x, x ∈ cs2 -> comment_id x ≠ req_comment_id req) ->
  comment_id c = req_comment_id req ->
  comment_user c ≠ req_user_id req ->
  sent s = None ->
  array_map (update_comment_cb req) (cs1 ++ c :: cs2) s =
    (inr (List.map SComment cs1 ++ SRes :: List.map SComment cs2),
     mkSt (db s) (directory s) 401 (Some unauthorized)
          (trace s ++ [EvSend unauthorized])).
Proof.
  intros H1 H2 Hc Hu Hs.
  induction cs1 as [|x cs1 IH]; simpl.
  - unfold bind, update_comment_cb at 1.
    rewrite Hc, String.eqb_refl, eqb_false_ne by done. simpl.
    run. rewrite Hs. simpl. rewrite array_map_no_match by done. reflexivity.
  - unfold bind, update_comment_cb at 1.
    rewrite eqb_false_ne by (apply H1; by left). unfold ret at 1.
    rewrite IH; [done|]. intros y Hy. apply H1. by right.
Qed.

Lemma mapM_cast_foreign castRes (cs1 cs2 : list Comment) :
  mapM (cast_slot castRes) (List.map SComment cs1 ++ SRes :: List.map SComment cs2)
  = match castRes with
    | Some c' => Some (cs1 ++ c' :: cs2)
    | None => None
    end.
Proof.
  induction cs1 as [|x cs1 IH]; simpl.
  - rewrite mapM_cast_comments. by destruct castRes.
  - rewrite IH. by destruct castRes.
Qed.

Lemma update_comment_foreign_goes_on
    (isObjectId : string -> bool) (canon : string -> string)
    (castRes : option Comment) (req : Req)
    (posts : gmap string Post) (us : gmap string User) (p : Post) cs1 c cs2 :
  validationResult req = [] ->
  isObjectId (req_post_id req) = true ->
  posts !! canon (req_post_id req) = Some p ->
  comments p = cs1 ++ c :: cs2 ->
  (forall x, x ∈ cs1 -> comment_id x ≠ req_comment_id req) ->
  (forall x, x ∈ cs2 -> comment_id x ≠ req_comment_id req) ->
  comment_id c = req_comment_id req ->
  comment_user c ≠ req_user_id req ->
  update_comment isObjectId canon castRes req (init posts us) =
    match castRes with
    | Some c' =>
        let p' := set_comments (cs1 ++ c' :: cs2) p in
        (inl ERR_HTTP_HEADERS_SENT,
         mkSt (<[canon (req_post_id req) := p']> posts) us 500 (Some unauthorized)
              [EvSend unauthorized; EvSave (canon (req_post_id req)) p';
               EvLog ERR_HTTP_HEADERS_SENT])
    | None =>
        (inl ERR_HTTP_HEADERS_SENT,
         mkSt posts us 500 (Some unauthorized)
              [EvSend unauthorized; EvLog ValidationError])
    end.
Proof.
  intros Hv Hid Hp Hcs H1 H2 Hc Hu.
  run. rewrite Hv. simpl. rewrite Hid, Hp. simpl. rewrite Hcs.
  rewrite array_map_foreign by done. simpl.
  unfold assign_comments. rewrite mapM_cast_foreign.
  destruct castRes; reflexivity.
Qed.

(** ** The like list of reachable collections *)

Lemma splice_sublist {A} (a b : Z) (l : list A) : sublist (splice a b l) l.
Proof.
  unfold splice. destruct (Z.ltb_spec a 0).
  all: set (i := Z.to_nat _); set (j := Z.to_nat _).
  all: assert (i <= j)%nat as Hij by (unfold i, j; lia).
  all: rewrite <- (take_drop i l) at 3.
  all: apply sublist_app; [done|].
  all: replace j with (i + (j - i))%nat by lia.
  all: rewrite <- drop_drop; apply sublist_drop.
Qed.

Ltac crunch :=
  repeat (case_match; simpl in *; simplify_eq);
  unfold option_map in *;
  repeat (case_match; simpl in *; simplify_eq); simpl in *.

(** What serving one request can do to the collection. *)
Lemma serve_change isObjectId canon castRes op env req posts us :
  (op = LikePost -> canon (req_user_id req) = req_user_id req) ->
  db_change posts op (serve isObjectId canon castRes op env req posts us).
Proof.
  intros Hcanon. unfold serve. destruct op.
  - (* create *) run. crunch; by constructor.
  - (* list *) run. constructor.
  - (* get *) run. crunch; by constructor.
  - (* delete *) run. crunch; by constructor.
  - (* update *) run. crunch; try by constructor.
    by eapply change_update.
  - (* like *) run. crunch; try by constructor.
    apply (change_like posts (canon (req_post_id req)) p
             (mkLike (fresh_id env) (canon (req_user_id req)))); [done|].
    simpl. rewrite (Hcanon eq_refl).
    apply filter_liked_by_nil_inv.
    match goal with H : (0 <? _) = false |- _ => apply Z.ltb_ge in H end.
    destruct (List.filter (liked_by req) (likes p)); [done|]. simpl in *. lia.
  - (* unlike *) run. crunch; try by constructor.
    eapply change_update; [done|]. apply splice_sublist.
  - (* add comment *) run. crunch; try by constructor.
    by eapply change_update.
  - (* update comment *)
    unfold handler, update_comment.
    destruct (negb (isEmpty (validationResult req))); [run; constructor|].
    unfold try_catch, bind at 1, Post_findById, init. simpl.
    destruct (isObjectId (req_post_id req)); [|run; constructor].
    destruct (posts !! canon (req_post_id req)) as [p|] eqn:Hp; simpl;
      [|run; constructor].
    unfold bind at 1.
    match goal with |- context [array_map ?f ?cs ?s] =>
      pose proof (array_map_db req cs s) as Hdb;
      destruct (array_map f cs s) as [[e|arr] s1] end; simpl in Hdb.
    + run. crunch; constructor.
    + unfold assign_comments.
      destruct (mapM (cast_slot castRes) arr) as [cs|]; run; crunch;
        try by constructor.
      all: by eapply change_update.
  - (* delete comment *)
    unfold handler, delete_comment.
    unfold try_catch, bind at 1, Post_findById, init. simpl.
    destruct (isObjectId (req_post_id req)); [|run; constructor].
    destruct (posts !! canon (req_post_id req)) as [p|] eqn:Hp; simpl;
      [|run; constructor].
    unfold bind at 1.
    match goal with |- context [array_filter ?f ?cs ?s] =>
      pose proof (array_filter_db req cs s) as Hdb;
      destruct (array_filter f cs s) as [[e|arr] s1] end; simpl in Hdb.
    + run. crunch; constructor.
    + run. crunch; try by constructor.
      all: by eapply change_update.
Qed.

Lemma db_change_unique posts op posts' :
  db_change posts op posts' -> likes_unique posts -> likes_unique posts'.
Proof.
  intros Hch Hinv pid' q Hq. destruct Hch as [| |? pid p' Hnone Hl|? pid p p' Hp Hsub|pid p e Hp He].
  - by eapply Hinv.
  - apply lookup_delete_Some in Hq as [_ Hq]. by eapply Hinv.
  - apply lookup_insert_Some in Hq as [[_ <-]|[_ Hq]]; [|by eapply Hinv].
    rewrite Hl. constructor.
  - apply lookup_insert_Some in Hq as [[_ <-]|[_ Hq]]; [|by eapply Hinv].
    eapply sublist_NoDup; [by eapply Hinv|]. by apply fmap_sublist.
  - apply lookup_insert_Some in Hq as [[_ <-]|[_ Hq]]; [|by eapply Hinv].
    simpl. apply NoDup_cons. split; [|by eapply Hinv].
    intros Hin. apply list_elem_of_fmap in Hin as (l & Hl & Hin).
    by apply (He l).
Qed.

Lemma reachable_unique isObjectId canon castRes posts :
  reachable isObjectId canon castRes posts -> likes_unique posts.
Proof.
  induction 1 as [|posts op env req us _ IH [_ Hcanon]].
  - intros pid p Hp. by rewrite lookup_empty in Hp.
  - eapply db_change_unique; [by apply serve_change | done].
Qed.

Lemma db_change_no_new_like posts op posts' pid p' :
  db_change posts op posts' -> op ≠ LikePost -> posts' !! pid = Some p' ->
  likes p' = [] \/ exists p, posts !! pid = Some p /\ sublist (likes p') (likes p).
Proof.
  intros Hch Hop Hq. destruct Hch as [| |? k q Hnone Hl|? k p q Hp Hsub|k p e Hp He].
  - right. by exists p'.
  - apply lookup_delete_Some in Hq as [_ Hq]. right. by exists p'.
  - apply lookup_insert_Some in Hq as [[_ <-]|[_ Hq]]; [by left|].
    right. by exists p'.
  - apply lookup_insert_Some in Hq as [[<- <-]|[_ Hq]]; right; [by exists p|].
    by exists p'.
  - done.
Qed.

Lemma liked_once req (ls : list Like) :
  NoDup (like_user <$> ls) ->
  (exists l, l ∈ ls /\ like_user l = req_user_id req) ->
  length (List.filter (liked_by req) ls) = 1%nat.
Proof.
  intros Hnd Hex.
  destruct (first_like_split req ls Hex) as (l1 & l & l2 & -> & Hu & Hl1).
  rewrite List.filter_app, filter_liked_by_nil by done. simpl.
  unfold liked_by at 1. rewrite Hu, String.eqb_refl. simpl.
  rewrite filter_liked_by_nil; [done|].
  intros x Hx Hxu. rewrite fmap_app in Hnd. apply NoDup_app in Hnd as (_ & _ & Hnd).
  simpl in Hnd. apply NoDup_cons in Hnd as [Hnotin _]. apply Hnotin.
  rewrite Hu, <- Hxu. by apply list_elem_of_fmap_2.
Qed.

(** C3: in every collection reached by serving requests one after the
    other from the empty collection, each request carrying the caller
    identifier the auth middleware gives it (a stored user's identifier
    as the store prints it), no post has two likes of the same author.  There, a like request by a caller who already has a like on
    the post is answered 400 'Post already liked', changes nothing, and
    the caller's likes on the post number exactly one.  Serving any
    request on a route other than like adds no like entry: afterwards the
    like list of each post is empty (a new post) or is what remains of
    the list it had, in order. *)
Theorem C3_one_like_per_author
    (isObjectId : string -> bool) (canon : string -> string)
    (castRes : option Comment) (posts : gmap string Post) :
  reachable isObjectId canon castRes posts ->
  likes_unique posts
  /\ (forall env req us p,
        isObjectId (req_post_id req) = true ->
        posts !! canon (req_post_id req) = Some p ->
        (exists l, l ∈ likes p /\ like_user l = req_user_id req) ->
        like_post isObjectId canon env req (init posts us) =
          (inr tt, mkSt posts us 400 (Some already_liked) [EvSend already_liked])
        /\ length (List.filter (liked_by req) (likes p)) = 1%nat)
  /\ (forall op env req us pid p',
        op ≠ LikePost ->
        serve isObjectId canon castRes op env req posts us !! pid = Some p' ->
        likes p' = []
        \/ exists p, posts !! pid = Some p /\ sublist (likes p') (likes p)).
Proof.
  intros Hreach. pose proof (reachable_unique _ _ _ _ Hreach) as Hinv.
  split_and!; [done| |].
  - intros env req us p Hid Hp Hex.
    pose proof (liked_once req (likes p) (Hinv _ _ Hp) Hex) as Hone.
    split; [|done].
    run. rewrite Hid, Hp. simpl. rewrite Hone. reflexivity.
  - intros op env req us pid p' Hop Hq.
    eapply db_change_no_new_like; [by apply serve_change|done..].
Qed.

Lemma C3_one_like_per_author_witness :
  reachable hex24 lower_hex None sample_world
  /\ likes_unique sample_world
  /\ like_post hex24 lower_hex sample_env (mkReq bob_id post1_id "" None)
       (init sample_world sample_users) =
     (inr tt, mkSt sample_world sample_users 400 (Some already_liked)
                [EvSend already_liked]).
Proof.
  assert (reachable hex24 lower_hex None sample_world) as Hreach.
  { apply reachable_serve; [|split; reflexivity].
    apply reachable_serve; [|split; reflexivity].
    apply reachable_empty. }
  split; [exact Hreach|].
  pose proof (C3_one_like_per_author hex24 lower_hex None sample_world Hreach)
    as (Hinv & Hlike & _).
  split; [exact Hinv|].
  refine (proj1 (Hlike sample_env (mkReq bob_id post1_id "" None) sample_users
            (mkPost "hello" "Alice" "alice.png" alice_id 5
               [mkLike "5f00000000000000000000e1" bob_id] []) _ _ _)).
  - reflexivity.
  - reflexivity.
  - exists (mkLike "5f00000000000000000000e1" bob_id). split; [|reflexivity].
    simpl. by left.
Defined.

(** Why the caller identifiers of [reachable] are the printed ones: the
    already-liked check compares the stored author with the string of the
    request, the stored entry holds the cast identifier.  A caller
    spelled in upper case on a post Bob has liked passes the check and a
    second entry of Bob is saved. *)
Example like_in_another_spelling_is_stored_again :
  like_post hex24 lower_hex sample_env
      (mkReq "5F0000000000000000000B0B" post1_id "" None)
      (init liked_posts sample_users) =
    (inr tt,
     mkSt (<[post1_id :=
               mkPost "hello" "Alice" "alice.png" alice_id 5
                 [mkLike (fresh_id sample_env) bob_id;
                  mkLike "5f00000000000000000000e1" bob_id]
                 [comment1]]> liked_posts)
          sample_users 200
          (Some (mkResponse 200 (BLikes
             [mkLike (fresh_id sample_env) bob_id;
              mkLike "5f00000000000000000000e1" bob_id])))
          [EvSave post1_id
             (mkPost "hello" "Alice" "alice.png" alice_id 5
                [mkLike (fresh_id sample_env) bob_id;
                 mkLike "5f00000000000000000000e1" bob_id]
                [comment1]);
           EvSend (mkResponse 200 (BLikes
             [mkLike (fresh_id sample_env) bob_id;
              mkLike "5f00000000000000000000e1" bob_id]))]).
Proof. vm_compute. reflexivity. Qed.

(** A caller identifier the store cannot cast at all: the like cannot be
    saved, the answer is the generic 500 and nothing is written. *)
Example like_by_uncastable_caller_is_rejected :
  like_post hex24 lower_hex sample_env (mkReq "nobody" post1_id "" None)
      (init sample_posts sample_users) =
    (inr tt, mkSt sample_posts sample_users 500 (Some server_error_response)
               [EvLog ValidationError; EvSend server_error_response]).
Proof. vm_compute. reflexivity. Qed.

(** ** Validation comes first *)

(** X1: on the four routes that check the body, a missing or empty text
    is answered 400 with the field error before anything else happens:
    no lookup, no log entry, no write, whatever the identifiers in the
    request are. *)
Theorem X1_empty_text_rejected_first
    (isObjectId : string -> bool) (canon : string -> string)
    (castRes : option Comment)
    (op : Op) (env : Env) (req : Req)
    (posts : gmap string Post) (us : gmap string User) :
  validated op = true ->
  req_text req = None \/ req_text req = Some "" ->
  handler isObjectId canon castRes op env req (init posts us) =
    (inr tt, mkSt posts us 400 (Some text_required) [EvSend text_required]).
Proof.
  intros Hop Ht.
  assert (validationResult req = ["Text is required"]) as Hv
    by (unfold validationResult; destruct Ht as [-> | ->]; reflexivity).
  destruct op; try discriminate Hop; run; rewrite Hv; reflexivity.
Qed.

Lemma X1_empty_text_rejected_first_witness :
  handler hex24 lower_hex None UpdateComment sample_env
      (mkReq bob_id "not-an-id" comment1_id (Some ""))
      (init sample_posts sample_users) =
    (inr tt, mkSt sample_posts sample_users 400 (Some text_required)
               [EvSend text_required]).
Proof.
  apply (X1_empty_text_rejected_first hex24 lower_hex None UpdateComment sample_env
           (mkReq bob_id "not-an-id" comment1_id (Some ""))
           sample_posts sample_users).
  - reflexivity.
  - right. reflexivity.
Defined.

(** ** Creating a post *)

(** X2: with a text that passes validation, a caller the directory knows
    and an identifier not yet in the collection, create-post stores one
    new post under that identifier, carrying the text, the caller's name
    and avatar as the directory has them and the caller's identifier (in
    the spelling the store prints); it answers 200 with that post, and every post that was in the collection
    is still there unchanged. *)
Theorem X2_create_post_snapshot
    (isObjectId : string -> bool) (canon : string -> string)
    (env : Env) (req : Req)
    (posts : gmap string Post) (us : gmap string User) (u : User) (t : string) :
  isObjectId (req_user_id req) = true ->
  us !! canon (req_user_id req) = Some u ->
  req_text req = Some t ->
  t ≠ "" ->
  posts !! fresh_id env = None ->
  let p := mkPost t (user_name u) (user_avatar u) (canon (req_user_id req))
                  (now env) [] [] in
  let r := mkResponse 200 (BPost (fresh_id env) p) in
  create_post isObjectId canon env req (init posts us) =
    (inr tt, mkSt (<[fresh_id env := p]> posts) us 200 (Some r)
               [EvSave (fresh_id env) p; EvSend r])
  /\ (forall pid q, posts !! pid = Some q ->
        <[fresh_id env := p]> posts !! pid = Some q).
Proof.
  intros Hcid Hu Ht Hne Hfresh p r. split.
  - run. unfold validationResult, body_text. rewrite Ht.
    destruct t as [|a t]; [done|]. simpl.
    rewrite Hcid. simpl. rewrite Hu. simpl. rewrite Hfresh. reflexivity.
  - intros pid q Hq. rewrite lookup_insert_ne; [done|]. congruence.
Qed.

Lemma X2_create_post_snapshot_witness :
  create_post hex24 lower_hex sample_env (mkReq bob_id "" "" (Some "hi"))
      (init sample_posts sample_users) =
    (inr tt,
     mkSt (<[fresh_id sample_env := mkPost "hi" "Bob" "bob.png" bob_id 20 [] []]>
             sample_posts)
          sample_users 200
          (Some (mkResponse 200 (BPost (fresh_id sample_env)
                   (mkPost "hi" "Bob" "bob.png" bob_id 20 [] []))))
          [EvSave (fresh_id sample_env) (mkPost "hi" "Bob" "bob.png" bob_id 20 [] []);
           EvSend (mkResponse 200 (BPost (fresh_id sample_env)
                   (mkPost "hi" "Bob" "bob.png" bob_id 20 [] [])))]).
Proof.
  refine (proj1 (X2_create_post_snapshot hex24 lower_hex sample_env
            (mkReq bob_id "" "" (Some "hi")) sample_posts sample_users
            bob "hi" _ _ _ _ _)); try reflexivity.
  discriminate.
Defined.

(** X3: when the directory has no entry under the identifier the
    caller's is cast to, [user.name] is a property access on null: create-post, and add-comment on an existing
    post, log the TypeError, answer the generic 500 and write nothing. *)
Theorem X3_unknown_caller_is_server_error
    (isObjectId : string -> bool) (canon : string -> string)
    (env : Env) (req : Req)
    (posts : gmap string Post) (us : gmap string User) :
  validationResult req = [] ->
  isObjectId (req_user_id req) = true ->
  us !! canon (req_user_id req) = None ->
  let failed :=
    (inr tt, mkSt posts us 500 (Some server_error_response)
               [EvLog TypeError; EvSend server_error_response]) in
  create_post isObjectId canon env req (init posts us) = failed
  /\ (isObjectId (req_post_id req) = true ->
      is_Some (posts !! canon (req_post_id req)) ->
      add_comment isObjectId canon env req (init posts us) = failed).
Proof.
  intros Hv Hcid Hu failed. split.
  - run. rewrite Hv. simpl. rewrite Hcid. simpl. rewrite Hu. reflexivity.
  - intros Hid [p Hp]. run. rewrite Hv. simpl. rewrite Hcid. simpl.
    rewrite Hid. simpl. rewrite Hp, Hu. reflexivity.
Qed.

Lemma X3_unknown_caller_is_server_error_witness :
  add_comment hex24 lower_hex sample_env
      (mkReq "5f0000000000000000000ccc" post1_id "" (Some "hi"))
      (init sample_posts sample_users) =
    (inr tt, mkSt sample_posts sample_users 500 (Some server_error_response)
               [EvLog TypeError; EvSend server_error_response]).
Proof.
  refine (proj2 (X3_unknown_caller_is_server_error hex24 lower_hex sample_env
            (mkReq "5f0000000000000000000ccc" post1_id "" (Some "hi"))
            sample_posts sample_users _ _ _) _ _); try reflexivity.
  exists post1. reflexivity.
Defined.

(** The directory is read under the cast identifier: Bob's identifier
    written in upper case still finds Bob, and the comment stores the
    identifier as the store prints it. *)
Example add_comment_in_another_spelling_finds_the_user :
  add_comment hex24 lower_hex sample_env
      (mkReq "5F0000000000000000000B0B" post1_id "" (Some "nice"))
      (init sample_posts sample_users) =
    (inr tt,
     mkSt (<[post1_id :=
               mkPost "hello" "Alice" "alice.png" alice_id 5 []
                 [mkComment (fresh_id sample_env) "nice" "Bob" "bob.png" bob_id 20;
                  comment1]]> sample_posts)
          sample_users 200
          (Some (mkResponse 200 (BComments
             [mkComment (fresh_id sample_env) "nice" "Bob" "bob.png" bob_id 20;
              comment1])))
          [EvSave post1_id
             (mkPost "hello" "Alice" "alice.png" alice_id 5 []
                [mkComment (fresh_id sample_env) "nice" "Bob" "bob.png" bob_id 20;
                 comment1]);
           EvSend (mkResponse 200 (BComments
             [mkComment (fresh_id sample_env) "nice" "Bob" "bob.png" bob_id 20;
              comment1]))]).
Proof. vm_compute. reflexivity. Qed.

(** X4: in add-comment the user lookup comes before the post lookup and
    shares its [catch] block: a caller identifier the store does not
    accept as a reference is answered 404 'Post not found', also when the
    post exists; nothing is written. *)
Theorem X4_add_comment_bad_caller_reads_as_post_not_found
    (isObjectId : string -> bool) (canon : string -> string)
    (env : Env) (req : Req)
    (posts : gmap string Post) (us : gmap string User) :
  validationResult req = [] ->
  isObjectId (req_user_id req) = false ->
  add_comment isObjectId canon env req (init posts us) =
    (inr tt, mkSt posts us 404 (Some not_found)
               [EvLog CastError_ObjectId; EvSend not_found]).
Proof.
  intros Hv Hcid. run. rewrite Hv. simpl. rewrite Hcid. reflexivity.
Qed.

Lemma X4_add_comment_bad_caller_reads_as_post_not_found_witness :
  add_comment hex24 lower_hex sample_env (mkReq "nobody" post1_id "" (Some "hi"))
      (init sample_posts sample_users) =
    (inr tt, mkSt sample_posts sample_users 404 (Some not_found)
               [EvLog CastError_ObjectId; EvSend not_found]).
Proof.
  apply (X4_add_comment_bad_caller_reads_as_post_not_found hex24 lower_hex sample_env
           (mkReq "nobody" post1_id "" (Some "hi")) sample_posts sample_users);
    reflexivity.
Defined.

(** ** A post that is not there *)

(** X5: on every route with a [:post_id] parameter, a well-formed
    identifier with no post under what it is cast to is answered 404 'Post not found'; the
    handler returns normally and the collection is as it was.  On the
    three routes that validate the body this is the answer once
    validation has passed. *)
Theorem X5_absent_post_not_found
    (isObjectId : string -> bool) (canon : string -> string)
    (castRes : option Comment)
    (op : Op) (env : Env) (req : Req)
    (posts : gmap string Post) (us : gmap string User) :
  has_post_id op = true ->
  isObjectId (req_post_id req) = true ->
  posts !! canon (req_post_id req) = None ->
  (validated op = true -> validationResult req = []) ->
  let out := handler isObjectId canon castRes op env req (init posts us) in
  fst out = inr tt /\ sent (snd out) = Some not_found /\ db (snd out) = posts.
Proof.
  intros Hop Hid Hnone Hv.
  destruct op; try discriminate Hop; run;
    try (rewrite (Hv eq_refl); simpl);
    try (destruct (isObjectId (req_user_id req)); simpl);
    rewrite ?Hid; simpl; rewrite ?Hnone; simpl; done.
Qed.

Lemma X5_absent_post_not_found_witness :
  fst (handler hex24 lower_hex None LikePost sample_env
         (mkReq bob_id "5f0000000000000000000002" "" None)
         (init sample_posts sample_users)) = inr tt
  /\ sent (snd (handler hex24 lower_hex None LikePost sample_env
         (mkReq bob_id "5f0000000000000000000002" "" None)
         (init sample_posts sample_users))) = Some not_found
  /\ db (snd (handler hex24 lower_hex None LikePost sample_env
         (mkReq bob_id "5f0000000000000000000002" "" None)
         (init sample_posts sample_users))) = sample_posts.
Proof.
  apply (X5_absent_post_not_found hex24 lower_hex None LikePost sample_env
           (mkReq bob_id "5f0000000000000000000002" "" None)
           sample_posts sample_users); try reflexivity.
  discriminate.
Defined.

(** ** The author's own comment *)

Lemma array_map_own req (cs1 : list Comment) c cs2 s :
  (forall x, x ∈ cs1 -> comment_id x ≠ req_comment_id req) ->
  (forall x, x ∈ cs2 -> comment_id x ≠ req_comment_id req) ->
  comment_id c = req_comment_id req ->
  comment_user c = req_user_id req ->
  array_map (update_comment_cb req) (cs1 ++ c :: cs2) s =
    (inr (List.map SComment (cs1 ++ set_comment_text (body_text req) c :: cs2)), s).
Proof.
  intros H1 H2 Hc Hu.
  induction cs1 as [|x cs1 IH]; simpl.
  - unfold bind, update_comment_cb at 1.
    rewrite Hc, Hu, !String.eqb_refl. simpl. unfold ret at 1.
    rewrite array_map_no_match by done. reflexivity.
  - unfold bind, update_comment_cb at 1.
    rewrite eqb_false_ne by (apply H1; by left). unfold ret at 1.
    rewrite IH; [done|]. intros y Hy. apply H1. by right.
Qed.

Lemma array_filter_own req (cs1 : list Comment) c cs2 s :
  (forall x, x ∈ cs1 -> comment_id x ≠ req_comment_id req) ->
  (forall x, x ∈ cs2 -> comment_id x ≠ req_comment_id req) ->
  comment_id c = req_comment_id req ->
  comment_user c = req_user_id req ->
  array_filter (delete_comment_cb req) (cs1 ++ c :: cs2) s = (inr (cs1 ++ cs2), s).
Proof.
  intros H1 H2 Hc Hu.
  induction cs1 as [|x cs1 IH]; simpl.
  - unfold bind, delete_comment_cb at 1.
    rewrite Hc, Hu, !String.eqb_refl. simpl. unfold ret at 1.
    rewrite array_filter_no_match by done. reflexivity.
  - unfold bind, delete_comment_cb at 1.
    rewrite eqb_false_ne by (apply H1; by left). unfold ret at 1.
    rewrite IH; [done|]. intros y Hy. apply H1. by right.
Qed.

(** X6: when the comment with the given identifier is the caller's own,
    update-comment (with a text that passes validation) replaces the text
    of that comment and nothing else: its other fields, and the comments
    before and after it, stay as they were and in place.  The post is
    saved with the new list and the answer is 200 with that list. *)
Theorem X6_update_own_comment
    (isObjectId : string -> bool) (canon : string -> string)
    (castRes : option Comment) (req : Req)
    (posts : gmap string Post) (us : gmap string User) (p : Post) cs1 c cs2
    (t : string) :
  req_text req = Some t ->
  t ≠ "" ->
  isObjectId (req_post_id req) = true ->
  posts !! canon (req_post_id req) = Some p ->
  comments p = cs1 ++ c :: cs2 ->
  (forall x, x ∈ cs1 -> comment_id x ≠ req_comment_id req) ->
  (forall x, x ∈ cs2 -> comment_id x ≠ req_comment_id req) ->
  comment_id c = req_comment_id req ->
  comment_user c = req_user_id req ->
  let pid := canon (req_post_id req) in
  let c' := mkComment (comment_id c) t (comment_name c) (comment_avatar c)
                      (comment_user c) (comment_date c) in
  let cs' := cs1 ++ c' :: cs2 in
  let p' := mkPost (text p) (name p) (avatar p) (user p) (date p) (likes p) cs' in
  let r := mkResponse 200 (BComments cs') in
  update_comment isObjectId canon castRes req (init posts us) =
    (inr tt, mkSt (<[pid := p']> posts) us 200 (Some r) [EvSave pid p'; EvSend r]).
Proof.
  intros Ht Hne Hid Hp Hcs H1 H2 Hc Hu pid c' cs' p' r.
  assert (validationResult req = []) as Hv
    by (unfold validationResult; rewrite Ht; by destruct t).
  assert (body_text req = t) as Hbody by (unfold body_text; by rewrite Ht).
  run. rewrite Hv. simpl. rewrite Hid, Hp. simpl. rewrite Hcs.
  rewrite array_map_own by done. simpl.
  unfold assign_comments. rewrite mapM_cast_comments, Hbody. reflexivity.
Qed.

Lemma X6_update_own_comment_witness :
  update_comment hex24 lower_hex None
      (mkReq alice_id post1_id comment1_id (Some "edited"))
      (init sample_posts sample_users) =
    (inr tt,
     mkSt (<[post1_id :=
               mkPost "hello" "Alice" "alice.png" alice_id 5 []
                 [mkComment comment1_id "edited" "Alice" "alice.png" alice_id 10]]>
             sample_posts)
          sample_users 200
          (Some (mkResponse 200 (BComments
             [mkComment comment1_id "edited" "Alice" "alice.png" alice_id 10])))
          [EvSave post1_id
             (mkPost "hello" "Alice" "alice.png" alice_id 5 []
                [mkComment comment1_id "edited" "Alice" "alice.png" alice_id 10]);
           EvSend (mkResponse 200 (BComments
             [mkComment comment1_id "edited" "Alice" "alice.png" alice_id 10]))]).
Proof.
  apply (X6_update_own_comment hex24 lower_hex None
           (mkReq alice_id post1_id comment1_id (Some "edited"))
           sample_posts sample_users post1 [] comment1 [] "edited");
    try reflexivity.
  - discriminate.
  - intros x Hx. by apply elem_of_nil in Hx.
  - intros x Hx. by apply elem_of_nil in Hx.
Defined.

(** X7: when the comment with the given identifier is the caller's own,
    delete-comment removes that comment and nothing else: the comments
    before and after it stay, in order.  The post is saved with the
    shorter list and the answer is 200 with that list. *)
Theorem X7_delete_own_comment
    (isObjectId : string -> bool) (canon : string -> string)
    (req : Req)
    (posts : gmap string Post) (us : gmap string User) (p : Post) cs1 c cs2 :
  isObjectId (req_post_id req) = true ->
  posts !! canon (req_post_id req) = Some p ->
  comments p = cs1 ++ c :: cs2 ->
  (forall x, x ∈ cs1 -> comment_id x ≠ req_comment_id req) ->
  (forall x, x ∈ cs2 -> comment_id x ≠ req_comment_id req) ->
  comment_id c = req_comment_id req ->
  comment_user c = req_user_id req ->
  let pid := canon (req_post_id req) in
  let p' := set_comments (cs1 ++ cs2) p in
  let r := mkResponse 200 (BComments (cs1 ++ cs2)) in
  delete_comment isObjectId canon req (init posts us) =
    (inr tt, mkSt (<[pid := p']> posts) us 200 (Some r) [EvSave pid p'; EvSend r]).
Proof.
  intros Hid Hp Hcs H1 H2 Hc Hu pid p' r.
  run. rewrite Hid, Hp. simpl. rewrite Hcs.
  rewrite array_filter_own by done. reflexivity.
Qed.

Lemma X7_delete_own_comment_witness :
  delete_comment hex24 lower_hex (mkReq alice_id post1_id comment1_id None)
      (init sample_posts sample_users) =
    (inr tt,
     mkSt (<[post1_id := set_comments [] post1]> sample_posts) sample_users 200
          (Some (mkResponse 200 (BComments [])))
          [EvSave post1_id (set_comments [] post1);
           EvSend (mkResponse 200 (BComments []))]).
Proof.
  apply (X7_delete_own_comment hex24 lower_hex (mkReq alice_id post1_id comment1_id None)
           sample_posts sample_users post1 [] comment1 []); try reflexivity.
  - intros x Hx. by apply elem_of_nil in Hx.
  - intros x Hx. by apply elem_of_nil in Hx.
Defined.

(** X8: add-comment followed by delete-comment of the comment just added,
    by the same caller (whose identifier is in the spelling the store
    prints, as a token carries it), brings the post back: when the new comment's
    identifier is not one the post already uses, the second request
    answers 200 with the comment list as it was before the first, and the
    collection is the original one. *)
Theorem X8_add_then_delete_comment
    (isObjectId : string -> bool) (canon : string -> string)
    (env : Env) (req : Req)
    (posts : gmap string Post) (us : gmap string User) (p : Post) (u : User) :
  validationResult req = [] ->
  isObjectId (req_post_id req) = true ->
  posts !! canon (req_post_id req) = Some p ->
  canonical isObjectId canon (req_user_id req) ->
  us !! req_user_id req = Some u ->
  (forall x, x ∈ comments p -> comment_id x ≠ fresh_id env) ->
  req_comment_id req = fresh_id env ->
  let pid := canon (req_post_id req) in
  let r := mkResponse 200 (BComments (comments p)) in
  delete_comment isObjectId canon req
    (init (db (snd (add_comment isObjectId canon env req (init posts us)))) us) =
    (inr tt, mkSt posts us 200 (Some r) [EvSave pid p; EvSend r]).
Proof.
  intros Hv Hid Hp [Hcid Hcanon] Hu Hfresh Hreq pid r.
  assert (db (snd (add_comment isObjectId canon env req (init posts us)))
          = <[pid := set_comments
                (mkComment (fresh_id env) (body_text req) (user_name u)
                   (user_avatar u) (req_user_id req) (now env) :: comments p) p]>
              posts) as ->.
  { run. rewrite Hv. simpl. rewrite Hcid. simpl. rewrite Hid. simpl.
    rewrite Hp, Hcanon, Hu. reflexivity. }
  set (c := mkComment _ _ _ _ _ _).
  pose proof (array_filter_own req [] c (comments p)) as Hown.
  simpl app in Hown.
  run. rewrite Hid. unfold pid. rewrite lookup_insert_eq.
  cbn -[array_filter]. rewrite Hown; try done.
  - cbn.
    change (set_comments (comments p) (set_comments (c :: comments p) p))
      with (set_comments (comments p) p).
    rewrite set_comments_id, insert_insert_eq, insert_id by done.
    reflexivity.
  - intros x Hx. by apply elem_of_nil in Hx.
  - intros x Hx. rewrite Hreq. by apply Hfresh.
Qed.

Lemma X8_add_then_delete_comment_witness :
  delete_comment hex24 lower_hex
      (mkReq bob_id post1_id (fresh_id sample_env) (Some "nice"))
      (init (db (snd (add_comment hex24 lower_hex sample_env
                        (mkReq bob_id post1_id (fresh_id sample_env) (Some "nice"))
                        (init sample_posts sample_users))))
            sample_users) =
    (inr tt, mkSt sample_posts sample_users 200
               (Some (mkResponse 200 (BComments [comment1])))
               [EvSave post1_id post1;
                EvSend (mkResponse 200 (BComments [comment1]))]).
Proof.
  apply (X8_add_then_delete_comment hex24 lower_hex sample_env
           (mkReq bob_id post1_id (fresh_id sample_env) (Some "nice"))
           sample_posts sample_users post1 bob); try reflexivity.
  - split; reflexivity.
  - intros x Hx. apply list_elem_of_singleton in Hx as ->. discriminate.
Defined.

(** ** Repeating a like or an unlike *)

(** X9: when the caller (whose identifier is in the spelling the store
    prints, as a token carries it) has no like on an existing post, a
    like request puts exactly one entry of the caller on the post, and a second like
    request by the same caller on the result is answered 400 'Post
    already liked' and changes nothing. *)
Theorem X9_like_twice
    (isObjectId : string -> bool) (canon : string -> string)
    (env env' : Env) (req : Req)
    (posts : gmap string Post) (us : gmap string User) (p : Post) :
  isObjectId (req_post_id req) = true ->
  posts !! canon (req_post_id req) = Some p ->
  canonical isObjectId canon (req_user_id req) ->
  (forall l, l ∈ likes p -> like_user l ≠ req_user_id req) ->
  let p1 := mkPost (text p) (name p) (avatar p) (user p) (date p)
                   (mkLike (fresh_id env) (req_user_id req) :: likes p)
                   (comments p) in
  let posts1 := db (snd (like_post isObjectId canon env req (init posts us))) in
  posts1 = <[canon (req_post_id req) := p1]> posts
  /\ length (List.filter (liked_by req) (likes p1)) = 1%nat
  /\ like_post isObjectId canon env' req (init posts1 us) =
       (inr tt, mkSt posts1 us 400 (Some already_liked) [EvSend already_liked]).
Proof.
  intros Hid Hp [Hcid Hcanon] Hno p1 posts1.
  assert (posts1 = <[canon (req_post_id req) := p1]> posts) as Hposts1.
  { unfold posts1. run. rewrite Hid, Hp. simpl.
    rewrite filter_liked_by_nil by done. simpl.
    rewrite Hcid, Hcanon. reflexivity. }
  assert (List.filter (liked_by req) (likes p1)
          = [mkLike (fresh_id env) (req_user_id req)]) as Hf.
  { simpl. unfold liked_by at 1. simpl. rewrite String.eqb_refl.
    by rewrite filter_liked_by_nil. }
  split_and!; [done | by rewrite Hf |].
  rewrite Hposts1. run. rewrite Hid, lookup_insert_eq. simpl.
  unfold liked_by at 1. simpl. rewrite String.eqb_refl. reflexivity.
Qed.

Lemma X9_like_twice_witness :
  like_post hex24 lower_hex sample_env (mkReq bob_id post1_id "" None)
      (init (db (snd (like_post hex24 lower_hex sample_env (mkReq bob_id post1_id "" None)
                        (init sample_posts sample_users)))) sample_users) =
    (inr tt,
     mkSt (db (snd (like_post hex24 lower_hex sample_env (mkReq bob_id post1_id "" None)
                      (init sample_posts sample_users))))
          sample_users 400 (Some already_liked) [EvSend already_liked]).
Proof.
  refine (proj2 (proj2 (X9_like_twice hex24 lower_hex sample_env sample_env
            (mkReq bob_id post1_id "" None) sample_posts sample_users post1
            _ _ _ _))).
  - reflexivity.
  - reflexivity.
  - split; reflexivity.
  - intros l Hl. simpl in Hl. by apply elem_of_nil in Hl.
Defined.

(** X10: on an existing post with at most one like per author, once the
    caller's like has been removed by an unlike request, a second unlike
    request by the same caller is answered 400 'Post has not yet been
    liked' and changes nothing. *)
Theorem X10_unlike_twice
    (isObjectId : string -> bool) (canon : string -> string)
    (req : Req)
    (posts : gmap string Post) (us : gmap string User) (p : Post) :
  isObjectId (req_post_id req) = true ->
  posts !! canon (req_post_id req) = Some p ->
  NoDup (like_user <$> likes p) ->
  (exists l, l ∈ likes p /\ like_user l = req_user_id req) ->
  let posts1 := db (snd (unlike_post isObjectId canon req (init posts us))) in
  unlike_post isObjectId canon req (init posts1 us) =
    (inr tt, mkSt posts1 us 400 (Some not_yet_liked) [EvSend not_yet_liked]).
Proof.
  intros Hid Hp Hnd Hex posts1.
  destruct (first_like_split req _ Hex) as (l1 & l & l2 & Hls & Hu & Hl1).
  assert (forall x, x ∈ l2 -> like_user x ≠ req_user_id req) as Hl2.
  { intros x Hx Hxu. rewrite Hls, fmap_app in Hnd.
    apply NoDup_app in Hnd as (_ & _ & Hnd). simpl in Hnd.
    apply NoDup_cons in Hnd as [Hnotin _]. apply Hnotin.
    rewrite Hu, <- Hxu. by apply list_elem_of_fmap_2. }
  assert (posts1 = <[canon (req_post_id req) := set_likes (l1 ++ l2) p]> posts) as ->.
  { unfold posts1. run. rewrite Hid, Hp. simpl. rewrite Hls.
    destruct (filter_liked_by_cons req l1 l l2 Hu) as [n ->].
    rewrite indexOf_first_like, splice_one by done. reflexivity. }
  run. rewrite Hid, lookup_insert_eq. simpl.
  rewrite filter_liked_by_nil; [reflexivity|].
  intros x Hx. apply elem_of_app in Hx as [Hx|Hx]; auto.
Qed.

Lemma X10_unlike_twice_witness :
  unlike_post hex24 lower_hex (mkReq bob_id post1_id "" None)
      (init (db (snd (unlike_post hex24 lower_hex (mkReq bob_id post1_id "" None)
                        (init liked_posts sample_users)))) sample_users) =
    (inr tt,
     mkSt (db (snd (unlike_post hex24 lower_hex (mkReq bob_id post1_id "" None)
                      (init liked_posts sample_users))))
          sample_users 400 (Some not_yet_liked) [EvSend not_yet_liked]).
Proof.
  apply (X10_unlike_twice hex24 lower_hex (mkReq bob_id post1_id "" None)
           liked_posts sample_users
           (set_likes [mkLike "5f00000000000000000000e1" bob_id] post1)).
  - reflexivity.
  - reflexivity.
  - simpl. apply NoDup_singleton.
  - exists (mkLike "5f00000000000000000000e1" bob_id). split; [|reflexivity].
    simpl. by left.
Defined.

(** ** One response per request *)

Lemma responses_app tr1 tr2 : responses (tr1 ++ tr2) = responses tr1 ++ responses tr2.
Proof. apply omap_app. Qed.

Lemma update_comment_cb_answered req c s :
  answered s -> answered (snd (update_comment_cb req c s)).
Proof.
  unfold answered, update_comment_cb. intros Hs.
  destruct (String.eqb (comment_id c) (req_comment_id req)); [|done].
  destruct (negb (String.eqb (comment_user c) (req_user_id req))); [|done].
  run. destruct (sent s); simpl; [done|].
  by rewrite responses_app, Hs.
Qed.

Lemma delete_comment_cb_answered req c s :
  answered s -> answered (snd (delete_comment_cb req c s)).
Proof.
  unfold answered, delete_comment_cb. intros Hs.
  destruct (String.eqb (comment_id c) (req_comment_id req)); [|done].
  destruct (negb (String.eqb (comment_user c) (req_user_id req))); [|done].
  run. destruct (sent s); simpl; [done|].
  by rewrite responses_app, Hs.
Qed.

Lemma array_map_answered req cs s :
  answered s -> answered (snd (array_map (update_comment_cb req) cs s)).
Proof.
  revert s. induction cs as [|c cs IH]; intros s Hs; simpl; [done|].
  unfold bind. pose proof (update_comment_cb_answered req c s Hs) as Hc.
  destruct (update_comment_cb req c s) as [[e|y] s1]; simpl in *; [done|].
  pose proof (IH s1 Hc) as Hr.
  destruct (array_map (update_comment_cb req) cs s1) as [[e|ys] s2]; done.
Qed.

Lemma array_filter_answered req cs s :
  answered s -> answered (snd (array_filter (delete_comment_cb req) cs s)).
Proof.
  revert s. induction cs as [|c cs IH]; intros s Hs; simpl; [done|].
  unfold bind. pose proof (delete_comment_cb_answered req c s Hs) as Hc.
  destruct (delete_comment_cb req c s) as [[e|y] s1]; simpl in *; [done|].
  pose proof (IH s1 Hc) as Hr.
  destruct (array_filter (delete_comment_cb req) cs s1) as [[e|ys] s2]; done.
Qed.

Ltac answer :=
  crunch; unfold answered_once; simpl;
  try match goal with H : answered _ |- _ => unfold answered in H; simpl in H end;
  repeat match goal with H : sent ?s = _, H' : context [sent ?s] |- _ =>
    rewrite H in H' end;
  eexists; (split; [reflexivity|]);
  rewrite ?responses_app; simpl;
  repeat match goal with H : responses _ = _ |- _ => rewrite H end; done.

Lemma handler_answered_once isObjectId canon castRes op env req posts us :
  answered_once (handler isObjectId canon castRes op env req (init posts us)).
Proof.
  destruct op; simpl.
  all: try (run; answer).
  - (* update comment *)
    unfold update_comment.
    destruct (negb (isEmpty (validationResult req))); [run; answer|].
    unfold try_catch, bind at 1, Post_findById, init. simpl.
    destruct (isObjectId (req_post_id req)); [|run; answer].
    destruct (posts !! canon (req_post_id req)) as [p|] eqn:Hp; simpl; [|run; answer].
    unfold bind at 1.
    match goal with |- context [array_map ?f ?cs ?s] =>
      pose proof (array_map_answered req cs s eq_refl) as Hans;
      destruct (array_map f cs s) as [[e|arr] s1] end; simpl in Hans.
    + run. answer.
    + unfold assign_comments.
      destruct (mapM (cast_slot castRes) arr) as [cs|]; run; answer.
  - (* delete comment *)
    unfold delete_comment.
    unfold try_catch, bind at 1, Post_findById, init. simpl.
    destruct (isObjectId (req_post_id req)); [|run; answer].
    destruct (posts !! canon (req_post_id req)) as [p|] eqn:Hp; simpl; [|run; answer].
    unfold bind at 1.
    match goal with |- context [array_filter ?f ?cs ?s] =>
      pose proof (array_filter_answered req cs s eq_refl) as Hans;
      destruct (array_filter f cs s) as [[e|arr] s1] end; simpl in Hans.
    + run. answer.
    + run. answer.
Qed.

(** X11: every request is answered exactly once: whatever the route and
    the request, when the handler is done one response has gone out, and
    no second one.  On the eight routes that do not rewrite the comment
    list through an array callback the handler also returns normally. *)
Theorem X11_one_response_per_request
    (isObjectId : string -> bool) (canon : string -> string)
    (castRes : option Comment)
    (op : Op) (env : Env) (req : Req)
    (posts : gmap string Post) (us : gmap string User) :
  answered_once (handler isObjectId canon castRes op env req (init posts us))
  /\ (rewrites_comments op = false ->
      fst (handler isObjectId canon castRes op env req (init posts us)) = inr tt).
Proof.
  split; [apply handler_answered_once|].
  destruct op; simpl; try discriminate; intros _; run; crunch; done.
Qed.

(** ** What a request leaves alone *)

(** X12: on the eight routes that do not rewrite the comment list
    through an array callback, an answer other than 200 means nothing was
    written: the collection is the one the request started with. *)
Theorem X12_failure_writes_nothing
    (isObjectId : string -> bool) (canon : string -> string)
    (castRes : option Comment)
    (op : Op) (env : Env) (req : Req)
    (posts : gmap string Post) (us : gmap string User) (r : Response) :
  rewrites_comments op = false ->
  sent (snd (handler isObjectId canon castRes op env req (init posts us))) = Some r ->
  status_code r ≠ 200 ->
  db (snd (handler isObjectId canon castRes op env req (init posts us))) = posts.
Proof.
  intros Hop. destruct op; try discriminate Hop; run; crunch;
    intros ? ?; simplify_eq; simpl in *; done.
Qed.

Lemma X12_failure_writes_nothing_witness :
  db (snd (handler hex24 lower_hex None UpdatePost sample_env
             (mkReq bob_id post1_id "" (Some "mine now"))
             (init sample_posts sample_users))) = sample_posts.
Proof.
  apply (X12_failure_writes_nothing hex24 lower_hex None UpdatePost sample_env
           (mkReq bob_id post1_id "" (Some "mine now"))
           sample_posts sample_users unauthorized).
  - reflexivity.
  - reflexivity.
  - discriminate.
Defined.

(** X13: a request touches at most one document: the post it creates
    (create-post) or the post its [:post_id] is cast to (every other
    route).
    Whatever the route, the request and its outcome, every other
    identifier of the collection holds afterwards what it held before. *)
Theorem X13_other_posts_untouched
    (isObjectId : string -> bool) (canon : string -> string)
    (castRes : option Comment)
    (op : Op) (env : Env) (req : Req)
    (posts : gmap string Post) (us : gmap string User) (pid : string) :
  pid ≠ target canon op env req ->
  serve isObjectId canon castRes op env req posts us !! pid = posts !! pid.
Proof.
  intros Hpid.
  assert (forall q, <[target canon op env req := q]> posts !! pid = posts !! pid)
    as Hins
    by (intros q; by rewrite lookup_insert_ne).
  assert (delete (target canon op env req) posts !! pid = posts !! pid) as Hdel
    by (by rewrite lookup_delete_ne).
  unfold serve. destruct op; simpl in Hins, Hdel.
  1-8: run; crunch; done.
  - (* update comment *)
    unfold handler, update_comment.
    destruct (negb (isEmpty (validationResult req))); [run; done|].
    unfold try_catch, bind at 1, Post_findById, init. simpl.
    destruct (isObjectId (req_post_id req)); [|run; done].
    destruct (posts !! canon (req_post_id req)) as [p|] eqn:Hp; simpl; [|run; done].
    unfold bind at 1.
    match goal with |- context [array_map ?f ?cs ?s] =>
      pose proof (array_map_db req cs s) as Hdb;
      destruct (array_map f cs s) as [[e|arr] s1] end; simpl in Hdb.
    + run. crunch; first [done | apply Hins].
    + unfold assign_comments.
      destruct (mapM (cast_slot castRes) arr) as [cs|]; run; crunch;
        first [done | apply Hins].
  - (* delete comment *)
    unfold handler, delete_comment.
    unfold try_catch, bind at 1, Post_findById, init. simpl.
    destruct (isObjectId (req_post_id req)); [|run; done].
    destruct (posts !! canon (req_post_id req)) as [p|] eqn:Hp; simpl; [|run; done].
    unfold bind at 1.
    match goal with |- context [array_filter ?f ?cs ?s] =>
      pose proof (array_filter_db req cs s) as Hdb;
      destruct (array_filter f cs s) as [[e|arr] s1] end; simpl in Hdb.
    + run. crunch; first [done | apply Hins].
    + run. crunch; first [done | apply Hins].
Qed.

(** Bob deletes his post, written in upper case in the path: it is gone,
    and Alice's post is untouched. *)
Lemma X13_other_posts_untouched_witness :
  serve hex24 lower_hex None DeletePost sample_env
      (mkReq bob_id "5F0000000000000000000002" "" None)
      two_posts sample_users !! post1_id
  = two_posts !! post1_id
  /\ serve hex24 lower_hex None DeletePost sample_env
      (mkReq bob_id "5F0000000000000000000002" "" None)
      two_posts sample_users !! post2_id
  = None.
Proof.
  split; [|reflexivity].
  apply (X13_other_posts_untouched hex24 lower_hex None DeletePost sample_env
           (mkReq bob_id "5F0000000000000000000002" "" None)
           two_posts sample_users post1_id).
  discriminate.
Defined.

(** ** The shape of the answers *)

Lemma update_comment_cb_tidy req c s :
  tidy s -> tidy (snd (update_comment_cb req c s)).
Proof.
  unfold tidy, update_comment_cb. intros Hs.
  destruct (String.eqb (comment_id c) (req_comment_id req)); [|done].
  destruct (negb (String.eqb (comment_user c) (req_user_id req))); [|done].
  run. destruct (sent s); simpl; done.
Qed.

Lemma delete_comment_cb_tidy req c s :
  tidy s -> tidy (snd (delete_comment_cb req c s)).
Proof.
  unfold tidy, delete_comment_cb. intros Hs.
  destruct (String.eqb (comment_id c) (req_comment_id req)); [|done].
  destruct (negb (String.eqb (comment_user c) (req_user_id req))); [|done].
  run. destruct (sent s); simpl; done.
Qed.

Lemma array_map_tidy req cs s :
  tidy s -> tidy (snd (array_map (update_comment_cb req) cs s)).
Proof.
  revert s. induction cs as [|c cs IH]; intros s Hs; simpl; [done|].
  unfold bind. pose proof (update_comment_cb_tidy req c s Hs) as Hc.
  destruct (update_comment_cb req c s) as [[e|y] s1]; simpl in *; [done|].
  pose proof (IH s1 Hc) as Hr.
  destruct (array_map (update_comment_cb req) cs s1) as [[e|ys] s2]; done.
Qed.

Lemma array_filter_tidy req cs s :
  tidy s -> tidy (snd (array_filter (delete_comment_cb req) cs s)).
Proof.
  revert s. induction cs as [|c cs IH]; intros s Hs; simpl; [done|].
  unfold bind. pose proof (delete_comment_cb_tidy req c s Hs) as Hc.
  destruct (delete_comment_cb req c s) as [[e|y] s1]; simpl in *; [done|].
  pose proof (IH s1 Hc) as Hr.
  destruct (array_filter (delete_comment_cb req) cs s1) as [[e|ys] s2]; done.
Qed.

Ltac shape :=
  crunch; unfold documented_outcome; simpl;
  try match goal with H : tidy _ |- _ => unfold tidy in H; simpl in H end;
  repeat match goal with H : sent ?s = _, H' : context [sent ?s] |- _ =>
    rewrite H in H' end;
  intros ? ?; simplify_eq; simpl in *;
  repeat match goal with H : statusCode _ = _ |- _ => rewrite H end; done.

Lemma handler_documented isObjectId canon castRes op env req posts us :
  documented_outcome (handler isObjectId canon castRes op env req (init posts us)).
Proof.
  destruct op; simpl.
  all: try (run; shape).
  - (* update comment *)
    unfold update_comment.
    destruct (negb (isEmpty (validationResult req))); [run; shape|].
    unfold try_catch, bind at 1, Post_findById, init. simpl.
    destruct (isObjectId (req_post_id req)); [|run; shape].
    destruct (posts !! canon (req_post_id req)) as [p|] eqn:Hp; simpl; [|run; shape].
    unfold bind at 1.
    match goal with |- context [array_map ?f ?cs ?s] =>
      pose proof (array_map_tidy req cs s eq_refl) as Htidy;
      destruct (array_map f cs s) as [[e|arr] s1] end; simpl in Htidy.
    + run. shape.
    + unfold assign_comments.
      destruct (mapM (cast_slot castRes) arr) as [cs|]; run; shape.
  - (* delete comment *)
    unfold delete_comment.
    unfold try_catch, bind at 1, Post_findById, init. simpl.
    destruct (isObjectId (req_post_id req)); [|run; shape].
    destruct (posts !! canon (req_post_id req)) as [p|] eqn:Hp; simpl; [|run; shape].
    unfold bind at 1.
    match goal with |- context [array_filter ?f ?cs ?s] =>
      pose proof (array_filter_tidy req cs s eq_refl) as Htidy;
      destruct (array_filter f cs s) as [[e|arr] s1] end; simpl in Htidy.
    + run. shape.
    + run. shape.
Qed.

(** X14: whatever the route and the request, the response that goes out
    is one of the pairs the routes are written to send: 200 with data;
    400 with the field errors, 'Post already liked' or 'Post has not yet
    been liked'; 401 with 'User not authorized'; 404 with 'Post not
    found'; 500 with the text 'Server Error'.  In particular no status
    set for one answer is ever sent with the body of another. *)
Theorem X14_answers_are_documented
    (isObjectId : string -> bool) (canon : string -> string)
    (castRes : option Comment)
    (op : Op) (env : Env) (req : Req)
    (posts : gmap string Post) (us : gmap string User) (r : Response) :
  sent (snd (handler isObjectId canon castRes op env req (init posts us))) = Some r ->
  documented r = true.
Proof. apply handler_documented. Qed.

Lemma X14_answers_are_documented_witness :
  documented unauthorized = true.
Proof.
  apply (X14_answers_are_documented hex24 lower_hex None DeleteComment sample_env
           (mkReq bob_id post1_id comment1_id None)
           sample_posts sample_users unauthorized).
  reflexivity.
Defined.

(** ** Creating, then listing *)

(** X15: after a successful create-post, list-posts answers 200 with a
    list that holds the new post and every post that was there before,
    and is exactly one longer than the collection was. *)
Theorem X15_created_post_is_listed
    (isObjectId : string -> bool) (canon : string -> string)
    (env : Env) (req req' : Req)
    (posts : gmap string Post) (us : gmap string User) (u : User) (t : string) :
  isObjectId (req_user_id req) = true ->
  us !! canon (req_user_id req) = Some u ->
  req_text req = Some t ->
  t ≠ "" ->
  posts !! fresh_id env = None ->
  let p := mkPost t (user_name u) (user_avatar u) (canon (req_user_id req))
                  (now env) [] [] in
  let posts1 := db (snd (create_post isObjectId canon env req (init posts us))) in
  exists l,
    get_posts req' (init posts1 us) =
      (inr tt, mkSt posts1 us 200 (Some (mkResponse 200 (BPosts l)))
                 [EvSend (mkResponse 200 (BPosts l))])
    /\ (fresh_id env, p) ∈ l
    /\ (forall id q, posts !! id = Some q -> (id, q) ∈ l)
    /\ length l = S (size posts).
Proof.
  intros Hcid Hu Ht Hne Hfresh p posts1.
  assert (posts1 = <[fresh_id env := p]> posts) as ->.
  { unfold posts1. run. unfold validationResult, body_text. rewrite Ht.
    destruct t as [|a t]; [done|]. simpl.
    rewrite Hcid. simpl. rewrite Hu. simpl. rewrite Hfresh. reflexivity. }
  exists (merge_sort newer_first (map_to_list (<[fresh_id env := p]> posts))).
  split_and!.
  - reflexivity.
  - rewrite merge_sort_Permutation. apply elem_of_map_to_list.
    apply lookup_insert_eq.
  - intros id q Hq. rewrite merge_sort_Permutation. apply elem_of_map_to_list.
    rewrite lookup_insert_ne; [done|]. congruence.
  - rewrite merge_sort_Permutation, length_map_to_list.
    by apply map_size_insert_None.
Qed.

Lemma X15_created_post_is_listed_witness :
  exists l,
    get_posts (mkReq alice_id "" "" None)
      (init (db (snd (create_post hex24 lower_hex sample_env (mkReq bob_id "" "" (Some "hi"))
                        (init sample_posts sample_users)))) sample_users) =
      (inr tt,
       mkSt (db (snd (create_post hex24 lower_hex sample_env (mkReq bob_id "" "" (Some "hi"))
                        (init sample_posts sample_users))))
            sample_users 200 (Some (mkResponse 200 (BPosts l)))
            [EvSend (mkResponse 200 (BPosts l))])
    /\ length l = 2%nat.
Proof.
  destruct (X15_created_post_is_listed hex24 lower_hex sample_env
              (mkReq bob_id "" "" (Some "hi")) (mkReq alice_id "" "" None)
              sample_posts sample_users bob "hi")
    as (l & Hl & _ & _ & Hlen); try reflexivity; [discriminate|].
  exists l. split; [exact Hl | exact Hlen].
Defined.
